(** * Order timeline / progress state machine of the order back end

    A shallow embedding of the order life cycle implemented in
    [controllers/orderController.js] (request handlers [createOrder],
    [updateOrder], [advanceOrderPhase], [updateOrderPhase]) and in the
    [Order] model (instance methods [advancePhase] and [updateStatus]).

    Conventions of the embedding:
    - JavaScript numbers that the code uses as cursors and indices are [Z];
      array indices produced by [map]/[forEach]/[findIndex] are [nat] and are
      injected with [Z.of_nat] where the code compares them with a cursor.
    - Arrays are lists; [arr[i]] is [at_index], which is [None] (JavaScript
      [undefined]) for a negative or too large [i].
    - Optional request fields are [option]; JavaScript truthiness of such a
      field is written out ([truthy_str], [truthy_bool], [truthy_num]).
    - The current date, which the model formats with [moment()], is an explicit
      argument [today].
    - The progress percentage of the update path is computed as the code
      computes it, in IEEE 754 double arithmetic (the primitive floats). *)

From Stdlib Require Import ZArith String Ascii Bool Lia.
From Stdlib Require Import PrimFloat SpecFloat FloatOps.
From stdpp Require Import base list strings pretty.

Local Open Scope string_scope.
Local Open Scope Z_scope.

(** ** JavaScript helpers *)

Section JsHelpers.
Context {A : Type}.

(** [arr[i]] for a numeric index [i]. *)
Definition at_index (arr : list A) (i : Z) : option A :=
  if i <? 0 then None else arr !! Z.to_nat i.

(** [if (arr[i]) { mutate arr[i] }]: the guarded in-place update of one
    element; nothing happens when the element does not exist. *)
Definition update_at (f : A → A) (i : Z) (arr : list A) : list A :=
  if i <? 0 then arr else alter f (Z.to_nat i) arr.

End JsHelpers.

(** Truthiness of an optional string ([undefined] and [''] are falsy). *)
Definition truthy_str (s : option string) : bool :=
  match s with
  | Some v => negb (String.eqb v "")
  | None => false
  end.

(** [s || d] on strings. *)
Definition or_str (s : option string) (d : string) : string :=
  if truthy_str s then default d s else d.

(** Truthiness of an optional boolean. *)
Definition truthy_bool (b : option bool) : bool := default false b.

(** Truthiness of an optional number ([undefined] and [0] are falsy). *)
Definition truthy_num (n : option Z) : bool :=
  match n with
  | Some v => negb (v =? 0)
  | None => false
  end.

(** [String.prototype.toLowerCase] on the ASCII range.  Characters outside
    [A-Z] are kept; the only non-ASCII characters that JavaScript lowers to an
    ASCII letter give [k], which occurs in none of the keywords compared
    against below. *)
Definition lower_ascii (c : ascii) : ascii :=
  let n := nat_of_ascii c in
  if (Nat.leb 65 n && Nat.leb n 90)%bool then ascii_of_nat (n + 32) else c.

Fixpoint toLowerCase (s : string) : string :=
  match s with
  | EmptyString => EmptyString
  | String c rest => String (lower_ascii c) (toLowerCase rest)
  end.

(** ** Data model *)

(** A step of the seven step template: the literal objects of
    [defaultTimeline]. *)
Record TemplateStep := mkTemplateStep {
  tpl_id : Z;
  tpl_title : string;
  tpl_description : string;
  tpl_estimatedDuration : string
}.

(** [timelineStepSchema]. *)
Record TimelineStep := mkStep {
  step_id : Z;
  title : string;
  description : string;
  estimatedDuration : string;
  startDate : string;
  finishDate : string;
  step_status : string;
  isCompleted : bool;
  isInProgress : bool;
  isLocked : bool
}.

(** [progress] of [orderSchema]. *)
Record Progress := mkProgress {
  current : Z;
  total : Z
}.

(** The part of [orderSchema] that the life cycle reads and writes. *)
Record Order := mkOrder {
  orderId : string;
  status : string;
  currentPhase : string;
  progress : Progress;
  timeline : list TimelineStep;
  lastUpdatedBy : option string
}.

(** The template, identical in [createOrder] and [updateOrder]. *)
Definition defaultTimeline : list TemplateStep :=
  [ mkTemplateStep 1 "Offer Accepted"
      "Customer has approved the offer; order has been initiated." "1 day";
    mkTemplateStep 2 "Mold / Product in Development"
      "Product or mold is being created." "14 days";
    mkTemplateStep 3 "Sample Sent to Client"
      "Customer receives a sample. Approval required." "3 days";
    mkTemplateStep 4 "Sample Approved"
      "Customer has approved the sample. Mass production begins." "2 days";
    mkTemplateStep 5 "Production Phase"
      "Final product is being manufactured." "21 days";
    mkTemplateStep 6 "Transport Phase"
      "Order has shipped. In transit to the destination country." "7 days";
    mkTemplateStep 7 "Delivered to Final Location"
      "Order has been delivered to the specified location." "1 day" ].

(** The three shapes a step is given all over the controller. *)
Definition setCompleted (s : TimelineStep) : TimelineStep :=
  mkStep (step_id s) (title s) (description s) (estimatedDuration s)
         (startDate s) (finishDate s) "Completed" true false false.

Definition setInProgress (s : TimelineStep) : TimelineStep :=
  mkStep (step_id s) (title s) (description s) (estimatedDuration s)
         (startDate s) (finishDate s) "In Progress" false true false.

Definition setLocked (s : TimelineStep) : TimelineStep :=
  mkStep (step_id s) (title s) (description s) (estimatedDuration s)
         (startDate s) (finishDate s) "Locked" false false true.

(** [{...step}] of a template entry; the two dates are not in the template and
    get the schema default [''] when the document is created. *)
Definition ofTemplate (t : TemplateStep) : TimelineStep :=
  mkStep (tpl_id t) (tpl_title t) (tpl_description t) (tpl_estimatedDuration t)
         "" "" "Locked" false false true.

(** Predicates on one step: status string and the three flags together. *)
Definition stepCompleted (s : TimelineStep) : bool :=
  String.eqb (step_status s) "Completed"
  && isCompleted s && negb (isInProgress s) && negb (isLocked s).

Definition stepInProgress (s : TimelineStep) : bool :=
  String.eqb (step_status s) "In Progress"
  && negb (isCompleted s) && isInProgress s && negb (isLocked s).

Definition stepLocked (s : TimelineStep) : bool :=
  String.eqb (step_status s) "Locked"
  && negb (isCompleted s) && negb (isInProgress s) && isLocked s.

(** The flags agree with the status: exactly the flag named by the status is
    set. *)
Definition flagsAgree (s : TimelineStep) : bool :=
  stepCompleted s || stepInProgress s || stepLocked s.

Definition count (p : TimelineStep → bool) (l : list TimelineStep) : nat :=
  length (filter (λ s, p s = true) l).

(** ** createOrder: the default timeline *)

(** The callback of [defaultTimeline.map((step, index) => ...)] in
    [createOrder], for [currentProgress = req.body.progress.current]. *)
Definition createStep (currentProgress : Z) (index : nat) (step : TemplateStep)
  : TimelineStep :=
  let stepPosition := Z.of_nat index + 1 in
  if stepPosition <? currentProgress then setCompleted (ofTemplate step)
  else if stepPosition =? currentProgress then setInProgress (ofTemplate step)
  else setLocked (ofTemplate step).

Definition defaultTimelineFor (currentProgress : Z) : list TimelineStep :=
  imap (createStep currentProgress) defaultTimeline.

(** The same construction addressed by the 0-based index of the active step. *)
Definition buildDefaultTimeline (currentIndex : Z) : list TimelineStep :=
  defaultTimelineFor (currentIndex + 1).

(** ** createOrder: resolving the cursor and the phase label *)

(** [req.body.progress] as the client sends it. *)
Record BodyProgress := mkBodyProgress {
  bp_current : option Z;
  bp_total : option Z
}.

(** The fields of [req.body] that [createOrder] reads and rewrites before it
    hands the body to [Order.create]. *)
Record CreateBody := mkCreateBody {
  cb_status : option string;
  cb_progress : option BodyProgress;
  cb_timeline : option (list TimelineStep);
  cb_currentPhase : option string
}.

(** [switch (req.body.status?.toLowerCase())]; an absent status takes the
    [default] branch. *)
Definition statusToProgress (st : option string) : Z :=
  match st with
  | None => 1
  | Some s =>
      let l := toLowerCase s in
      if String.eqb l "development" then 2
      else if String.eqb l "in progress" then 4
      else if String.eqb l "production" then 5
      else if String.eqb l "shipped" then 6
      else if String.eqb l "delivered" then 7
      else 1
  end.

(** [!req.body.timeline || req.body.timeline.length === 0]. *)
Definition noTimeline {X} (t : option (list X)) : bool :=
  match t with
  | None | Some [] => true
  | Some (_ :: _) => false
  end.

(** The cursor used for the default timeline: the supplied one unless it is
    absent, [0] or [1], in which case the status decides. *)
Definition createCursor (b : CreateBody) : Z :=
  let p := default (mkBodyProgress (Some 1) (Some 7)) (cb_progress b) in
  match bp_current p with
  | Some c => if (c =? 0) || (c =? 1) then statusToProgress (cb_status b) else c
  | None => statusToProgress (cb_status b)
  end.

(** First half of [createOrder]: progress and timeline when none is given. *)
Definition createDefaults (b : CreateBody) : CreateBody :=
  if noTimeline (cb_timeline b) then
    let p := default (mkBodyProgress (Some 1) (Some 7)) (cb_progress b) in
    let currentProgress := createCursor b in
    mkCreateBody (cb_status b)
      (Some (mkBodyProgress (Some currentProgress) (bp_total p)))
      (Some (defaultTimelineFor currentProgress))
      (cb_currentPhase b)
  else b.

(** Second half: default progress for a supplied timeline, then the phase
    label from the step under the cursor. *)
Definition createPhase (b : CreateBody) : CreateBody :=
  let p := default (mkBodyProgress (Some 1) (Some 7)) (cb_progress b) in
  let phase :=
    if negb (truthy_str (cb_currentPhase b)) && negb (noTimeline (cb_timeline b))
    then
      let currentStepIndex :=
        (if truthy_num (bp_current p) then default 1 (bp_current p) else 1) - 1 in
      match at_index (default [] (cb_timeline b)) currentStepIndex with
      | Some s => Some (title s)
      | None => cb_currentPhase b
      end
    else cb_currentPhase b in
  mkCreateBody (cb_status b) (Some p) (cb_timeline b) phase.

(** The body that [createOrder] passes to [Order.create]. *)
Definition createOrder (b : CreateBody) : CreateBody :=
  createPhase (createDefaults b).

(** ** updateOrder: normalising a supplied timeline *)

(** One element of [req.body.timeline] in an update: every field optional. *)
Record StepInput := mkStepInput {
  in_id : option Z;
  in_title : option string;
  in_description : option string;
  in_estimatedDuration : option string;
  in_startDate : option string;
  in_finishDate : option string;
  in_status : option string;
  in_isCompleted : option bool;
  in_isInProgress : option bool;
  in_isLocked : option bool
}.

(** [a || b] on two strings. *)
Definition orElse (a b : string) : string :=
  if String.eqb a "" then b else a.

(** Decimal rendering of a step number for the [`Step ${index + 1}`] label. *)
Definition stepLabel (index : nat) : string :=
  "Step " +:+ pretty.pretty (N.of_nat (index + 1)).

(** The callback of [req.body.timeline.map((step, index) => ...)]. *)
Definition normalizeStep (index : nat) (step : StepInput) : TimelineStep :=
  let tpl := defaultTimeline !! index in
  {| step_id := if truthy_num (in_id step) then default 0 (in_id step)
                else Z.of_nat index + 1;
     title := or_str (in_title step)
                (orElse (default "" (tpl_title <$> tpl)) (stepLabel index));
     description := or_str (in_description step)
                (orElse (default "" (tpl_description <$> tpl)) "");
     estimatedDuration := or_str (in_estimatedDuration step)
                (orElse (default "" (tpl_estimatedDuration <$> tpl)) "");
     startDate := or_str (in_startDate step) "";
     finishDate := or_str (in_finishDate step) "";
     step_status := or_str (in_status step)
                (if truthy_bool (in_isCompleted step) then "Completed"
                 else if truthy_bool (in_isInProgress step) then "In Progress"
                 else "Locked");
     isCompleted := truthy_bool (in_isCompleted step);
     isInProgress := truthy_bool (in_isInProgress step);
     isLocked := match in_isLocked step with Some false => false | _ => true end |}.

Definition normalizedIncoming (input : list StepInput) : list TimelineStep :=
  imap normalizeStep input.

(** The callback of [defaultTimeline.map((tpl, idx) => ...)]: the supplied step
    merged onto the template, or the locked template step. *)
Definition enforceStep (incoming : list TimelineStep) (idx : nat)
    (tpl : TemplateStep) : TimelineStep :=
  match incoming !! idx with
  | Some provided =>
      {| step_id := tpl_id tpl;
         title := orElse (title provided) (tpl_title tpl);
         description := orElse (description provided) (tpl_description tpl);
         estimatedDuration :=
           orElse (estimatedDuration provided) (tpl_estimatedDuration tpl);
         startDate := orElse (startDate provided) "";
         finishDate := orElse (finishDate provided) "";
         step_status := step_status provided;
         isCompleted := isCompleted provided;
         isInProgress := isInProgress provided;
         isLocked := isLocked provided |}
  | None => ofTemplate tpl
  end.

(** [enforcedTimeline] as built, before the loop that rewrites its flags. *)
Definition enforcedTimeline (input : list StepInput) : list TimelineStep :=
  imap (enforceStep (normalizedIncoming input)) defaultTimeline.

(** [Math.min(Math.max(x, lo), hi)]. *)
Definition clamp (lo hi x : Z) : Z := Z.min (Z.max x lo) hi.

Definition completedSteps (tl : list TimelineStep) : Z :=
  Z.of_nat (count isCompleted tl).

Definition inProgressSteps (tl : list TimelineStep) : Z :=
  Z.of_nat (count isInProgress tl).

(** [computedCurrent], then the clamp to [1..7]. *)
Definition computedCurrent (tl : list TimelineStep) : Z :=
  completedSteps tl + (if 0 <? inProgressSteps tl then 1 else 0).

Definition recomputedCurrent (tl : list TimelineStep) : Z :=
  clamp 1 7 (computedCurrent tl).

(** The body of the [forEach] loops that force one active step, in
    [updateOrder] (with [currentIndex]) and in [updateOrderPhase] (with
    [order.progress.current - 1]). *)
Definition sweepStep (currentIndex : Z) (index : nat) (item : TimelineStep)
  : TimelineStep :=
  if Z.of_nat index <? currentIndex then setCompleted item
  else if Z.of_nat index =? currentIndex then setInProgress item
  else setLocked item.

Definition sweep (currentIndex : Z) (tl : list TimelineStep) : list TimelineStep :=
  imap (sweepStep currentIndex) tl.

(** The JavaScript number that holds the integer [z]: the IEEE 754 double
    nearest to it, which is [z] itself up to 2^53. *)
Definition toDouble (z : Z) : float :=
  SF2Prim (binary_normalize prec emax z 0 false).

(** [(current / total) * 100] in double arithmetic; a zero [total] gives an
    infinity or NaN. *)
Definition progressPercent (cur tot : Z) : float :=
  PrimFloat.mul (PrimFloat.div (toDouble cur) (toDouble tot)) (toDouble 100).

(** [progressPercent >= pct], false for NaN. *)
Definition percentAtLeast (cur tot pct : Z) : bool :=
  PrimFloat.leb (toDouble pct) (progressPercent cur tot).

(** The threshold chain on [progressPercent]. *)
Definition statusFromPercentage (cur tot : Z) : string :=
  if percentAtLeast cur tot 100 then "Delivered"
  else if percentAtLeast cur tot 85 then "Shipped"
  else if percentAtLeast cur tot 70 then "Production"
  else if percentAtLeast cur tot 30 then "In Progress"
  else "Development".

(** The fields of [req.body] that [updateOrder] reads, and the body it passes
    to the store. *)
Record UpdateBody := mkUpdateBody {
  ub_status : option string;
  ub_progress : option BodyProgress;
  ub_timeline : option (list StepInput);
  ub_currentPhase : option string
}.

Record UpdatePatch := mkUpdatePatch {
  up_status : option string;
  up_progress : option BodyProgress;
  up_timeline : option (list TimelineStep);
  up_currentPhase : option string
}.

(** The timeline block of [updateOrder]. *)
Definition updateTimeline (b : UpdateBody) : UpdatePatch :=
  match ub_timeline b with
  | Some input =>
      let enforced := enforcedTimeline input in
      let cur := recomputedCurrent enforced in
      let currentIndex := cur - 1 in
      let swept := sweep currentIndex enforced in
      mkUpdatePatch (ub_status b)
        (Some (mkBodyProgress (Some cur) (Some 7)))
        (Some swept)
        (Some (orElse (default "" (title <$> at_index swept currentIndex))
                      "Offer Accepted"))
  | None =>
      mkUpdatePatch (ub_status b) (ub_progress b) None (ub_currentPhase b)
  end.

(** The status block of [updateOrder]: only when a progress is in the body and
    no status is. An absent [current] or [total] makes the percentage NaN. *)
Definition updateStatusFromProgress (p : UpdatePatch) : UpdatePatch :=
  match up_progress p with
  | Some pr =>
      if negb (truthy_str (up_status p)) then
        let st := match bp_current pr, bp_total pr with
                  | Some c, Some t => statusFromPercentage c t
                  | _, _ => "Development"
                  end in
        mkUpdatePatch (Some st) (up_progress p) (up_timeline p) (up_currentPhase p)
      else p
  | None => p
  end.

(** The body that [updateOrder] passes to [findByIdAndUpdate]. *)
Definition updateOrder (b : UpdateBody) : UpdatePatch :=
  updateStatusFromProgress (updateTimeline b).

(** ** The Order model: advancePhase and updateStatus *)

(** [phaseStatusMap[this.progress.current] || 'Development']. *)
Definition phaseStatusMap (cur : Z) : option string :=
  if cur =? 1 then Some "Development"
  else if cur =? 2 then Some "Development"
  else if cur =? 3 then Some "In Progress"
  else if cur =? 4 then Some "In Progress"
  else if cur =? 5 then Some "Production"
  else if cur =? 6 then Some "Shipped"
  else if cur =? 7 then Some "Delivered"
  else None.

Definition updateStatus (o : Order) : Order :=
  mkOrder (orderId o)
    (default "Development" (phaseStatusMap (current (progress o))))
    (currentPhase o) (progress o) (timeline o) (lastUpdatedBy o).

(** "Complete current phase": the four assignments on the step. *)
Definition finishStep (today : string) (s : TimelineStep) : TimelineStep :=
  mkStep (step_id s) (title s) (description s) (estimatedDuration s)
         (startDate s) today "Completed" true false (isLocked s).

(** "Start next phase": the four assignments on the step. *)
Definition startStep (today : string) (s : TimelineStep) : TimelineStep :=
  mkStep (step_id s) (title s) (description s) (estimatedDuration s)
         today (finishDate s) "In Progress" (isCompleted s) true false.

(** [orderSchema.methods.advancePhase]; [today] is
    [moment().format('M/D/YYYY')]. *)
Definition advancePhase (today : string) (o : Order) : Order :=
  let cur := current (progress o) in
  if cur <? total (progress o) then
    let completed := update_at (finishStep today) (cur - 1) (timeline o) in
    let next := cur + 1 in
    let phase :=
      orElse (default "" (title <$> at_index completed (next - 1)))
             (currentPhase o) in
    let started := update_at (startStep today) (next - 1) completed in
    updateStatus
      (mkOrder (orderId o) (status o) phase
         (mkProgress next (total (progress o))) started (lastUpdatedBy o))
  else o.

(** ** The phase handlers *)

(** What a handler answers: [next(new ErrorResponse(message, statusCode))],
    [res.status(200).json({ success, message, data })], or, when
    [order.save()] throws a ValidationError for [path] holding [value], the
    answer of [errorHandler] to it: status 400 with the message of the
    validator. *)
Inductive Response :=
  | ErrorResponse (message : string) (statusCode : Z)
  | Json200 (message : string) (data : Order)
  | SaveRejected (path : string) (value : Z).

(** The status code sent with an answer. *)
Definition statusCodeOf (r : Response) : Z :=
  match r with
  | ErrorResponse _ statusCode => statusCode
  | Json200 _ _ => 200
  | SaveRejected _ _ => 400
  end.

(** A handler run on the document that [findOrderByIdOrOrderId] returned:
    the document as the handler leaves it in memory, the document written by
    [order.save()] if the handler got that far, and the answer. *)
Record Handled := mkHandled {
  document : option Order;
  saved : option Order;
  response : Response
}.

Definition notFound (orderIdParam : string) : Handled :=
  mkHandled None None
    (ErrorResponse ("Order " +:+ orderIdParam +:+ " not found") 404).

Definition setLastUpdatedBy (admin : string) (o : Order) : Order :=
  mkOrder (orderId o) (status o) (currentPhase o) (progress o) (timeline o)
          (Some admin).

(** What [order.save()] can refuse of a document that a phase handler has
    changed.  The document came from the store, where it satisfied the schema,
    and the handlers give [status], [currentPhase], [lastUpdatedBy] and the
    steps only values that the schema admits; what is left is the range of
    [progress.current] ([min: 0], [max: 7] in [orderSchema]). *)
Definition saveRejects (o : Order) : bool :=
  (current (progress o) <? 0) || (7 <? current (progress o)).

(** [await order.save()] and the answer that follows: the document is written
    and returned, or the save throws, nothing is written and the document
    stays changed in memory only. *)
Definition saveAndAnswer (order' : Order) (message : string) : Handled :=
  if saveRejects order' then
    mkHandled (Some order') None
      (SaveRejected "progress.current" (current (progress order')))
  else mkHandled (Some order') (Some order') (Json200 message order').

(** [advanceOrderPhase]. *)
Definition advanceOrderPhase (today admin orderIdParam : string)
    (found : option Order) : Handled :=
  match found with
  | None => notFound orderIdParam
  | Some order =>
      if total (progress order) <=? current (progress order) then
        mkHandled (Some order) None
          (ErrorResponse "Order is already at the final phase" 400)
      else
        let order' := setLastUpdatedBy admin (advancePhase today order) in
        saveAndAnswer order'
          ("Order " +:+ orderId order' +:+ " advanced to "
           +:+ currentPhase order')
  end.

(** [order.timeline.findIndex(item => item.title === phase)]; [None] is the
    [-1] of JavaScript. *)
Definition findPhaseIndex (phase : string) (tl : list TimelineStep) : option nat :=
  fst <$> list_find (λ item, title item = phase) tl.

(** [updateOrderPhase] with [{ phase, progress } = req.body]. *)
Definition updateOrderPhase (admin orderIdParam phase : string)
    (explicitProgress : option Z) (found : option Order) : Handled :=
  match found with
  | None => notFound orderIdParam
  | Some order =>
      match findPhaseIndex phase (timeline order) with
      | None =>
          mkHandled (Some order) None
            (ErrorResponse "Invalid phase specified" 400)
      | Some phaseIndex =>
          let cur :=
            match explicitProgress with
            | Some p => clamp 0 (total (progress order)) p
            | None => Z.of_nat phaseIndex + 1
            end in
          let order' :=
            updateStatus
              (mkOrder (orderId order) (status order) phase
                 (mkProgress cur (total (progress order)))
                 (sweep (cur - 1) (timeline order))
                 (Some admin)) in
          saveAndAnswer order'
            ("Order " +:+ orderId order' +:+ " updated to " +:+ phase)
      end
  end.

(** ** The single active step invariant *)

(** What the sweeps establish for the step at [index] when the active step is
    at [currentIndex]. *)
Definition stepShape (currentIndex : Z) (index : nat) (s : TimelineStep) : bool :=
  if Z.of_nat index <? currentIndex then stepCompleted s
  else if Z.of_nat index =? currentIndex then stepInProgress s
  else stepLocked s.

(** Every step before [currentIndex] is Completed, the one at [currentIndex]
    is In Progress, the later ones are Locked, status and flags together. *)
Definition singleActiveAt (currentIndex : Z) (tl : list TimelineStep) : Prop :=
  ∀ i s, tl !! i = Some s → stepShape currentIndex i s = true.

(** A step sent back by a client as it was received: every field present. *)
Definition toInput (s : TimelineStep) : StepInput :=
  mkStepInput (Some (step_id s)) (Some (title s)) (Some (description s))
    (Some (estimatedDuration s)) (Some (startDate s)) (Some (finishDate s))
    (Some (step_status s)) (Some (isCompleted s)) (Some (isInProgress s))
    (Some (isLocked s)).

(** Position of a status in the life cycle, to compare two statuses. *)
Definition statusRank (st : string) : nat :=
  if String.eqb st "Development" then 0
  else if String.eqb st "In Progress" then 1
  else if String.eqb st "Production" then 2
  else if String.eqb st "Shipped" then 3
  else if String.eqb st "Delivered" then 4
  else 5.

(** ** The pre-save hook of the Order model *)

(** The timeline literal of [orderSchema.pre('save')]; [today] and [tomorrow]
    are [moment().format('M/D/YYYY')] and
    [moment().add(1, 'day').format('M/D/YYYY')]. *)
Definition preSaveTimeline (today tomorrow : string) : list TimelineStep :=
  [ mkStep 1 "Offer Accepted"
      "Customer has approved the offer; order has been initiated." "1 day"
      today tomorrow "Completed" true false false;
    mkStep 2 "Mold / Product in Development"
      "Product or mold is being created." "14 days"
      "" "" "Locked" false false true;
    mkStep 3 "Sample Sent to Client"
      "Customer receives a sample. Approval required." "3 days"
      "" "" "Locked" false false true;
    mkStep 4 "Sample Approved"
      "Customer has approved the sample. Mass production begins." "2 days"
      "" "" "Locked" false false true;
    mkStep 5 "Production Phase"
      "Final product is being manufactured." ""
      "" "" "Locked" false false true;
    mkStep 6 "Transport Phase"
      "Order has shipped. In transit to the destination country." ""
      "" "" "Locked" false false true;
    mkStep 7 "Delivered to Final Location"
      "Order has been delivered to the specified location." ""
      "" "" "Locked" false false true ].

(** [orderSchema.pre('save', ...)]: a new document without timeline gets the
    literal above. *)
Definition preSave (today tomorrow : string) (isNew : bool) (o : Order) : Order :=
  if isNew && bool_decide (timeline o = []) then
    mkOrder (orderId o) (status o) (currentPhase o) (progress o)
            (preSaveTimeline today tomorrow) (lastUpdatedBy o)
  else o.

(** ** Order identifiers and the order collection *)

(** A stored order document: the database identifier (an ObjectId, written as
    its 24 lower-case hexadecimal digits), the soft-delete flag and the order
    fields. *)
Record OrderDoc := mkOrderDoc {
  doc_id : string;
  isActive : bool;
  order : Order
}.

Definition isDigit (c : ascii) : bool :=
  let n := nat_of_ascii c in Nat.leb 48 n && Nat.leb n 57.

Definition isHexDigit (c : ascii) : bool :=
  let n := nat_of_ascii c in
  isDigit c || (Nat.leb 97 n && Nat.leb n 102) || (Nat.leb 65 n && Nat.leb n 70).

(** [/^[0-9a-fA-F]{24}$/.test(identifier)]. *)
Definition isObjectIdString (identifier : string) : bool :=
  let cs := list_ascii_of_string identifier in
  Nat.eqb (length cs) 24 && forallb isHexDigit cs.

(** [/^ORD-\d{4}-\d{3}$/.test(value)]. *)
Definition isOrderIdFormat (value : string) : bool :=
  match list_ascii_of_string value with
  | [o; r; d; h1; y1; y2; y3; y4; h2; n1; n2; n3] =>
      Ascii.eqb o "O" && Ascii.eqb r "R" && Ascii.eqb d "D" && Ascii.eqb h1 "-"
      && isDigit y1 && isDigit y2 && isDigit y3 && isDigit y4
      && Ascii.eqb h2 "-" && isDigit n1 && isDigit n2 && isDigit n3
  | _ => false
  end.

(** The custom check of [validateOrderId]: [true] when the value is accepted,
    [false] when 'Invalid order ID format' is thrown. *)
Definition validateOrderId (value : string) : bool :=
  if isObjectIdString value then true
  else if isOrderIdFormat value then true
  else false.

(** [Model.findOne(filter)]: the first document that matches. *)
Definition findOne {A} (filter : A → bool) (coll : list A) : option A :=
  snd <$> list_find (λ d, filter d = true) coll.

(** The filter [{ _id: identifier }]: the string is cast to an ObjectId, whose
    hexadecimal digits compare without regard to case. *)
Definition matchesId (identifier : string) (d : OrderDoc) : bool :=
  String.eqb (doc_id d) (toLowerCase identifier).

(** The filter [{ orderId: identifier }]. *)
Definition matchesOrderId (identifier : string) (d : OrderDoc) : bool :=
  String.eqb (orderId (order d)) identifier.

(** [findOrderByIdOrOrderId]: by [_id] for an ObjectId-shaped identifier, by
    [orderId] otherwise, active documents only. *)
Definition findOrderByIdOrOrderId (identifier : string) (coll : list OrderDoc)
  : option OrderDoc :=
  if isObjectIdString identifier
  then findOne (λ d, matchesId identifier d && isActive d) coll
  else findOne (λ d, matchesOrderId identifier d && isActive d) coll.

(** [findAnyOrderByIdOrOrderId]: the same without the [isActive] filter. *)
Definition findAnyOrderByIdOrOrderId (identifier : string) (coll : list OrderDoc)
  : option OrderDoc :=
  if isObjectIdString identifier
  then findOne (matchesId identifier) coll
  else findOne (matchesOrderId identifier) coll.

(** [doc.save()] of a document that is in the collection: the stored document
    with the same [_id] is replaced. *)
Definition saveDoc (d : OrderDoc) (coll : list OrderDoc) : list OrderDoc :=
  (λ x, if String.eqb (doc_id x) (doc_id d) then d else x) <$> coll.

(** [Order.deleteOne({ _id })]: the first document with that [_id] goes. *)
Fixpoint deleteOne (id : string) (coll : list OrderDoc) : list OrderDoc :=
  match coll with
  | [] => []
  | x :: rest => if String.eqb (doc_id x) id then rest else x :: deleteOne id rest
  end.

(** What the two delete handlers answer. *)
Inductive DeleteReply :=
  | DeleteFailed (message : string) (statusCode : Z)
  | Deleted (message : string).

(** [deleteOrder]: the soft delete. *)
Definition deleteOrder (admin orderIdParam : string) (coll : list OrderDoc)
  : list OrderDoc * DeleteReply :=
  match findOrderByIdOrOrderId orderIdParam coll with
  | None =>
      (coll, DeleteFailed ("Order " +:+ orderIdParam +:+ " not found") 404)
  | Some d =>
      let d' := mkOrderDoc (doc_id d) false (setLastUpdatedBy admin (order d)) in
      (saveDoc d' coll,
       Deleted ("Order " +:+ orderId (order d') +:+ " deleted successfully"))
  end.

(** [hardDeleteOrder]. *)
Definition hardDeleteOrder (orderIdParam : string) (coll : list OrderDoc)
  : list OrderDoc * DeleteReply :=
  match findAnyOrderByIdOrOrderId orderIdParam coll with
  | None =>
      (coll, DeleteFailed ("Order " +:+ orderIdParam +:+ " not found") 404)
  | Some d =>
      (deleteOne (doc_id d) coll,
       Deleted ("Order " +:+ orderId (order d) +:+ " permanently deleted"))
  end.

(** [s.padStart(3, '0')]. *)
Definition padStart3 (s : string) : string :=
  match String.length s with
  | O => "000" +:+ s
  | S O => "00" +:+ s
  | S (S O) => "0" +:+ s
  | _ => s
  end.

(** [`ORD-${year}-${randomNum}`] for
    [randomNum = Math.floor(Math.random() * 1000).toString().padStart(3, '0')];
    [n] is the floored random number. *)
Definition orderIdCandidate (year n : N) : string :=
  "ORD-" +:+ pretty.pretty year +:+ "-" +:+ padStart3 (pretty.pretty n).

(** The [while (!isUnique)] loop of [createOrder], run on the successive
    random numbers [draws]; [Order.findOne({ orderId })] looks at every
    document, active or not.  [None]: the draws are used up and the loop is
    still running. *)
Fixpoint generateOrderId (year : N) (draws : list N) (coll : list OrderDoc)
  : option string :=
  match draws with
  | [] => None
  | n :: rest =>
      let candidate := orderIdCandidate year n in
      match findOne (matchesOrderId candidate) coll with
      | Some _ => generateOrderId year rest coll
      | None => Some candidate
      end
  end.

(** The two digit groups of a generated order id. *)
Definition fourDigits (s : string) : bool :=
  match list_ascii_of_string s with
  | [a; b; c; d] => isDigit a && isDigit b && isDigit c && isDigit d
  | _ => false
  end.

Definition threeDigits (s : string) : bool :=
  match list_ascii_of_string s with
  | [a; b; c] => isDigit a && isDigit b && isDigit c
  | _ => false
  end.

(** ** getOrders: pagination *)

(** The [pagination] object of the answer. *)
Record Pagination := mkPagination {
  pg_current : Z;
  pg_pages : Z;
  pg_total : Z;
  pg_hasNext : bool;
  pg_hasPrev : bool
}.

(** [Math.ceil(total / limit)] for a positive [limit], on the exact quotient. *)
Definition ceilDiv (total limit : Z) : Z := (total + limit - 1) / limit.

(** The paging part of [getOrders] on the sorted list of matching documents,
    for the parsed [page] and [limit].  The request validators admit
    [page >= 1] and [1 <= limit <= 100]; outside [page >= 1], [limit >= 1] the
    store is asked for a negative skip or an unlimited page, which is not
    represented ([None]). *)
Definition getOrdersPage {A} (page limit : Z) (matching : list A)
  : option (list A * Pagination) :=
  if (1 <=? page) && (1 <=? limit) then
    let skip := (page - 1) * limit in
    let data := take (Z.to_nat limit) (drop (Z.to_nat skip) matching) in
    let total := Z.of_nat (length matching) in
    let totalPages := ceilDiv total limit in
    Some (data, mkPagination page totalPages total (page <? totalPages) (1 <? page))
  else None.

(** * Properties *)

(** ** Arrays and the sweep *)

Lemma at_index_nat {A} (l : list A) (i : nat) : at_index l (Z.of_nat i) = l !! i.
Proof.
  unfold at_index. destruct (Z.ltb_spec (Z.of_nat i) 0); [lia|].
  by rewrite Nat2Z.id.
Qed.

Lemma at_index_neg {A} (l : list A) (i : Z) : i < 0 → at_index l i = None.
Proof. intros Hi. unfold at_index. by destruct (Z.ltb_spec i 0); [|lia]. Qed.

Lemma at_index_beyond {A} (l : list A) (i : Z) :
  Z.of_nat (length l) ≤ i → at_index l i = None.
Proof.
  intros Hi. unfold at_index. destruct (Z.ltb_spec i 0); [done|].
  apply lookup_ge_None. lia.
Qed.

Lemma stepCompleted_set s : stepCompleted (setCompleted s) = true.
Proof. reflexivity. Qed.

Lemma stepInProgress_set s : stepInProgress (setInProgress s) = true.
Proof. reflexivity. Qed.

Lemma stepLocked_set s : stepLocked (setLocked s) = true.
Proof. reflexivity. Qed.

Lemma createStep_cases cur i t :
  (Z.of_nat i + 1 < cur ∧ createStep cur i t = setCompleted (ofTemplate t)) ∨
  (Z.of_nat i + 1 = cur ∧ createStep cur i t = setInProgress (ofTemplate t)) ∨
  (cur < Z.of_nat i + 1 ∧ createStep cur i t = setLocked (ofTemplate t)).
Proof.
  unfold createStep; cbv zeta.
  destruct (Z.ltb_spec (Z.of_nat i + 1) cur); [by left|].
  destruct (Z.eqb_spec (Z.of_nat i + 1) cur); [by right; left|].
  right; right. split; [lia|done].
Qed.

Lemma sweepStep_cases ci i s :
  (Z.of_nat i < ci ∧ sweepStep ci i s = setCompleted s) ∨
  (Z.of_nat i = ci ∧ sweepStep ci i s = setInProgress s) ∨
  (ci < Z.of_nat i ∧ sweepStep ci i s = setLocked s).
Proof.
  unfold sweepStep.
  destruct (Z.ltb_spec (Z.of_nat i) ci); [by left|].
  destruct (Z.eqb_spec (Z.of_nat i) ci); [by right; left|].
  right; right. split; [lia|done].
Qed.

Lemma length_defaultTimelineFor cur : length (defaultTimelineFor cur) = 7%nat.
Proof. unfold defaultTimelineFor. by rewrite length_imap. Qed.

Lemma lookup_defaultTimelineFor cur i s :
  defaultTimelineFor cur !! i = Some s →
  ∃ t, defaultTimeline !! i = Some t ∧ s = createStep cur i t.
Proof.
  unfold defaultTimelineFor. rewrite list_lookup_imap.
  destruct (defaultTimeline !! i) as [t|]; [|done].
  intros [= <-]. by exists t.
Qed.

(** ** createOrder *)

(** C3. For every cursor [cur] in [1..7] the default timeline built for it
    ([buildDefaultTimeline (cur - 1)]) has exactly 7 steps; the steps before
    index [cur - 1] are Completed, the step at [cur - 1] is the one In Progress
    step, the steps after it are Locked, so there are [cur - 1] Completed,
    one In Progress and [7 - cur] Locked steps, and on every step the flags
    [isCompleted], [isInProgress], [isLocked] agree with the status. *)
Theorem buildDefaultTimeline_shape (cur : Z) :
  1 ≤ cur ≤ 7 →
  let tl := buildDefaultTimeline (cur - 1) in
  length tl = 7%nat ∧
  (∀ i s, tl !! i = Some s →
     (Z.of_nat i < cur - 1 → stepCompleted s = true) ∧
     (Z.of_nat i = cur - 1 → stepInProgress s = true) ∧
     (cur - 1 < Z.of_nat i → stepLocked s = true)) ∧
  (∃ s, at_index tl (cur - 1) = Some s ∧ stepInProgress s = true) ∧
  count stepInProgress tl = 1%nat ∧
  count isInProgress tl = 1%nat ∧
  count stepCompleted tl = Z.to_nat (cur - 1) ∧
  count stepLocked tl = Z.to_nat (7 - cur) ∧
  Forall (λ s, flagsAgree s = true) tl.
Proof.
  intros Hcur tl. subst tl. unfold buildDefaultTimeline.
  replace (cur - 1 + 1) with cur by lia.
  split; [apply length_defaultTimelineFor|].
  split.
  { intros i s Hs. apply lookup_defaultTimelineFor in Hs as (t & _ & ->).
    destruct (createStep_cases cur i t) as [[H ->]|[[H ->]|[H ->]]];
      repeat split; intros; try lia; reflexivity. }
  assert (cur = 1 ∨ cur = 2 ∨ cur = 3 ∨ cur = 4 ∨ cur = 5 ∨ cur = 6 ∨ cur = 7)
    as Hcases by lia.
  destruct Hcases as [->|[->|[->|[->|[->|[->| ->]]]]]];
    (split; [eexists; split; reflexivity|]);
    repeat split; try reflexivity;
    repeat (apply Forall_cons; split; [reflexivity|]); apply Forall_nil_2.
Qed.

Lemma buildDefaultTimeline_shape_witness :
  1 ≤ 3 ≤ 7 ∧ count stepInProgress (buildDefaultTimeline (3 - 1)) = 1%nat.
Proof.
  split; [lia|]. apply (buildDefaultTimeline_shape 3). lia.
Defined.

Lemma statusToProgress_range st : 1 ≤ statusToProgress st ≤ 7.
Proof.
  unfold statusToProgress. destruct st as [s|]; [|lia].
  cbv zeta. repeat case_match; lia.
Qed.

Lemma createOrder_no_timeline b :
  noTimeline (cb_timeline b) = true →
  cb_timeline (createOrder b) = Some (defaultTimelineFor (createCursor b)) ∧
  bp_current <$> cb_progress (createOrder b) = Some (Some (createCursor b)).
Proof.
  intros Hno. unfold createOrder, createDefaults. rewrite Hno. by cbn.
Qed.

(** C6 (amended). For every create payload with no timeline and no explicit
    progress, the initial cursor is resolved from the payload's status string
    case-insensitively but without trimming: a status that lower-cases to
    development gives 2, in progress 4, production 5, shipped 6, delivered 7,
    and anything else (empty, absent, or padded with whitespace) gives 1; the
    total is 7 and the timeline is the default one for that cursor.  In
    particular "Shipped" yields cursor 6 and " shipped " yields cursor 1. *)
Theorem createOrder_cursor_from_status (b : CreateBody) :
  noTimeline (cb_timeline b) = true →
  cb_progress b = None →
  let c := statusToProgress (cb_status b) in
  cb_progress (createOrder b) = Some (mkBodyProgress (Some c) (Some 7)) ∧
  cb_timeline (createOrder b) = Some (buildDefaultTimeline (c - 1)) ∧
  1 ≤ c ≤ 7 ∧
  (cb_status b = None → c = 1) ∧
  (∀ s, cb_status b = Some s →
     (toLowerCase s = "development" → c = 2) ∧
     (toLowerCase s = "in progress" → c = 4) ∧
     (toLowerCase s = "production" → c = 5) ∧
     (toLowerCase s = "shipped" → c = 6) ∧
     (toLowerCase s = "delivered" → c = 7) ∧
     (toLowerCase s ≠ "development" → toLowerCase s ≠ "in progress" →
      toLowerCase s ≠ "production" → toLowerCase s ≠ "shipped" →
      toLowerCase s ≠ "delivered" → c = 1) ∧
     (∀ s', toLowerCase s' = toLowerCase s → statusToProgress (Some s') = c)) ∧
  (cb_status b = Some "Shipped" → c = 6) ∧
  (cb_status b = Some "" → c = 1) ∧
  (cb_status b = Some " shipped " → c = 1).
Proof.
  intros Hno Hp c.
  assert (createCursor b = c) as Hc.
  { unfold createCursor. by rewrite Hp. }
  split.
  { unfold createOrder, createDefaults. rewrite Hno, Hc, Hp. reflexivity. }
  split.
  { destruct (createOrder_no_timeline b Hno) as [-> _].
    rewrite Hc. unfold buildDefaultTimeline. do 2 f_equal. lia. }
  split; [apply statusToProgress_range|].
  subst c. split; [by intros ->|].
  split.
  { intros s ->. unfold statusToProgress; cbv zeta.
    repeat split.
    - by intros ->.
    - by intros ->.
    - by intros ->.
    - by intros ->.
    - by intros ->.
    - intros H1 H2 H3 H4 H5.
      by rewrite (proj2 (String.eqb_neq _ _) H1), (proj2 (String.eqb_neq _ _) H2),
        (proj2 (String.eqb_neq _ _) H3), (proj2 (String.eqb_neq _ _) H4),
        (proj2 (String.eqb_neq _ _) H5).
    - by intros s' ->. }
  repeat split; by intros ->.
Qed.

Lemma createOrder_cursor_from_status_witness :
  cb_progress (createOrder (mkCreateBody (Some "Shipped") None None None))
  = Some (mkBodyProgress (Some 6) (Some 7)).
Proof.
  apply (createOrder_cursor_from_status
           (mkCreateBody (Some "Shipped") None None None)); reflexivity.
Defined.

(** C6 as stated fails: a status padded with whitespace is not trimmed, so
    " shipped " resolves to cursor 1, not 6. *)
Lemma createOrder_untrimmed_status_counterexample :
  let b := mkCreateBody (Some " shipped ") None None None in
  cb_progress (createOrder b) = Some (mkBodyProgress (Some 1) (Some 7)) ∧
  (bp_current <$> cb_progress (createOrder b)) ≠ Some (Some 6).
Proof. split; [reflexivity|discriminate]. Qed.






(** ** updateOrder *)

Lemma length_enforcedTimeline input : length (enforcedTimeline input) = 7%nat.
Proof. unfold enforcedTimeline. by rewrite length_imap. Qed.

Lemma lookup_enforcedTimeline input i tpl :
  defaultTimeline !! i = Some tpl →
  enforcedTimeline input !! i =
    Some (match input !! i with
          | Some step => enforceStep [normalizeStep i step] 0 tpl
          | None => ofTemplate tpl
          end).
Proof.
  intros Ht. unfold enforcedTimeline. rewrite list_lookup_imap, Ht. cbn.
  f_equal. unfold enforceStep, normalizedIncoming.
  rewrite list_lookup_imap. by destruct (input !! i).
Qed.

Lemma lookup_enforcedTimeline_inv input i s :
  enforcedTimeline input !! i = Some s →
  ∃ tpl, defaultTimeline !! i = Some tpl.
Proof.
  unfold enforcedTimeline. rewrite list_lookup_imap.
  destruct (defaultTimeline !! i) as [t|]; [by exists t|done].
Qed.

Lemma tpl_title_nonempty i tpl :
  defaultTimeline !! i = Some tpl → String.eqb (tpl_title tpl) "" = false.
Proof.
  do 7 (destruct i as [|i]; [by intros [= <-]|]). done.
Qed.

Lemma orElse_nonempty a b : String.eqb a "" = false → orElse a b = a.
Proof. unfold orElse. by intros ->. Qed.

Lemma or_str_nonempty s d :
  String.eqb d "" = false → String.eqb (or_str s d) "" = false.
Proof.
  unfold or_str, truthy_str. destruct s as [v|]; [|done]. cbn.
  destruct (String.eqb v "") eqn:Hv; by cbn.
Qed.

Lemma enforceStep_title i step tpl :
  defaultTimeline !! i = Some tpl →
  title (enforceStep [normalizeStep i step] 0 tpl)
  = or_str (in_title step) (tpl_title tpl).
Proof.
  intros Ht. pose proof (tpl_title_nonempty i tpl Ht) as Hne.
  cbn. rewrite Ht. cbn. rewrite (orElse_nonempty (tpl_title tpl)) by done.
  apply orElse_nonempty. by apply or_str_nonempty.
Qed.

Lemma title_sweepStep ci i s : title (sweepStep ci i s) = title s.
Proof. unfold sweepStep. by repeat case_match. Qed.

Lemma lookup_sweep ci tl i : sweep ci tl !! i = sweepStep ci i <$> tl !! i.
Proof. unfold sweep. apply list_lookup_imap. Qed.

Lemma length_sweep ci tl : length (sweep ci tl) = length tl.
Proof. unfold sweep. apply length_imap. Qed.

(** C7. For every supplied timeline and every index [i] of the template at or
    beyond the length of the input (so for a length [L < 7], the indices [L]
    to [6]), the step that the update path's normalisation builds at [i] is
    the locked template step: status Locked, [isCompleted] and [isInProgress]
    false, [isLocked] true, title and description of the template; so it does
    not depend on the input at all. *)
Theorem enforcedTimeline_missing_locked (input : list StepInput) (i : nat)
    (tpl : TemplateStep) :
  (length input ≤ i)%nat →
  defaultTimeline !! i = Some tpl →
  ∃ s, enforcedTimeline input !! i = Some s ∧
       step_status s = "Locked" ∧
       isCompleted s = false ∧ isInProgress s = false ∧ isLocked s = true ∧
       title s = tpl_title tpl ∧ description s = tpl_description tpl ∧
       s = ofTemplate tpl ∧
       (∀ input', (length input' ≤ i)%nat → enforcedTimeline input' !! i = Some s).
Proof.
  intros Hlen Ht. exists (ofTemplate tpl).
  assert (∀ inp : list StepInput, (length inp ≤ i)%nat →
            enforcedTimeline inp !! i = Some (ofTemplate tpl)) as Hall.
  { intros inp Hinp. rewrite (lookup_enforcedTimeline inp i tpl Ht).
    by rewrite (lookup_ge_None_2 inp i Hinp). }
  split; [by apply Hall|]. repeat split; try done.
Qed.

Lemma enforcedTimeline_missing_locked_witness :
  ∃ s, enforcedTimeline
         [mkStepInput None None None None None None None (Some true) None None]
         !! 1%nat = Some s ∧ step_status s = "Locked".
Proof.
  destruct (enforcedTimeline_missing_locked
              [mkStepInput None None None None None None None (Some true) None None]
              1
              (mkTemplateStep 2 "Mold / Product in Development"
                 "Product or mold is being created." "14 days"))
    as (s & Hs & Hst & _); [cbn; lia | reflexivity |].
  exists s. by split.
Defined.

(** C9 (amended). For every supplied timeline the update path produces
    exactly 7 steps, and the title at each index is the supplied title when
    the caller gave a non-empty one at that index and the canonical template
    title otherwise; this holds for the normalised timeline and for the
    timeline finally written.  So the 7 titles are the canonical ones exactly
    when no supplied step among the first 7 carries a title. *)
Theorem enforcedTimeline_titles (input : list StepInput) :
  length (enforcedTimeline input) = 7%nat ∧
  (∀ i tpl, defaultTimeline !! i = Some tpl →
     title <$> enforcedTimeline input !! i =
       Some (match input !! i with
             | Some step => or_str (in_title step) (tpl_title tpl)
             | None => tpl_title tpl
             end)) ∧
  (∀ ci, title <$> sweep ci (enforcedTimeline input)
         = title <$> enforcedTimeline input) ∧
  ((∀ i step, input !! i = Some step → (i < 7)%nat →
              truthy_str (in_title step) = false) →
   title <$> enforcedTimeline input = tpl_title <$> defaultTimeline).
Proof.
  assert (∀ i tpl, defaultTimeline !! i = Some tpl →
     title <$> enforcedTimeline input !! i =
       Some (match input !! i with
             | Some step => or_str (in_title step) (tpl_title tpl)
             | None => tpl_title tpl
             end)) as Hpoint.
  { intros i tpl Ht. rewrite (lookup_enforcedTimeline input i tpl Ht). cbn.
    f_equal. destruct (input !! i) as [step|]; [|done].
    by apply enforceStep_title. }
  split; [apply length_enforcedTimeline|].
  split; [exact Hpoint|].
  split.
  { intros ci. apply list_eq; intros i.
    rewrite !list_lookup_fmap, lookup_sweep.
    destruct (enforcedTimeline input !! i) as [s|]; [|done].
    cbn. by rewrite title_sweepStep. }
  intros Hnone. apply list_eq; intros i. rewrite !list_lookup_fmap.
  destruct (defaultTimeline !! i) as [tpl|] eqn:Ht.
  - rewrite (Hpoint i tpl Ht). cbn. f_equal.
    destruct (input !! i) as [step|] eqn:Hin; [|done].
    unfold or_str. rewrite (Hnone i step Hin); [done|].
    by apply lookup_lt_Some in Ht.
  - destruct (enforcedTimeline input !! i) as [s|] eqn:Hs; [|done].
    apply lookup_enforcedTimeline_inv in Hs as [tpl Htpl]. congruence.
Qed.

Lemma enforcedTimeline_titles_witness :
  title <$> enforcedTimeline
              [mkStepInput None None None None None None None (Some true) None None]
  = tpl_title <$> defaultTimeline.
Proof.
  apply (enforcedTimeline_titles
           [mkStepInput None None None None None None None (Some true) None None]).
  intros i step Hin _. destruct i as [|i]; [|done].
  by injection Hin as <-.
Defined.

(** C9 as stated fails: a supplied non-empty title replaces the template
    title, here at index 0. *)
Lemma enforcedTimeline_custom_title_counterexample :
  let input :=
    [mkStepInput None (Some "Quote signed") None None None None None None None None] in
  title <$> enforcedTimeline input ≠ tpl_title <$> defaultTimeline ∧
  (title <$> default [] (up_timeline (updateOrder (mkUpdateBody None None (Some input) None))))
    !! 0%nat = Some "Quote signed".
Proof. split; [discriminate|reflexivity]. Qed.

Lemma count_pos_existsb (p : TimelineStep → bool) (tl : list TimelineStep) :
  (0 <? Z.of_nat (count p tl)) = existsb p tl.
Proof.
  unfold count. induction tl as [|s tl IH]; [done|].
  cbn [existsb]. rewrite filter_cons.
  destruct (decide (p s = true)) as [Hp|Hp].
  - rewrite Hp. cbn [orb length]. apply Z.ltb_lt. lia.
  - apply not_true_is_false in Hp. rewrite Hp. cbn [orb]. exact IH.
Qed.

Lemma recomputedCurrent_range tl : 1 ≤ recomputedCurrent tl ≤ 7.
Proof. unfold recomputedCurrent, clamp. lia. Qed.

Lemma statusFromPercentage_of_7 cur :
  1 ≤ cur ≤ 7 →
  statusFromPercentage cur 7 =
    if cur =? 7 then "Delivered" else if cur =? 6 then "Shipped"
    else if cur =? 5 then "Production" else if 3 <=? cur then "In Progress"
    else "Development".
Proof.
  intros Hc.
  assert (cur = 1 ∨ cur = 2 ∨ cur = 3 ∨ cur = 4 ∨ cur = 5 ∨ cur = 6 ∨ cur = 7)
    as Hcases by lia.
  by destruct Hcases as [->|[->|[->|[->|[->|[->| ->]]]]]].
Qed.

Lemma enforcedTimeline_flags input i s :
  enforcedTimeline input !! i = Some s →
  isCompleted s = truthy_bool (input !! i ≫= in_isCompleted) ∧
  isInProgress s = truthy_bool (input !! i ≫= in_isInProgress).
Proof.
  intros Hs. destruct (lookup_enforcedTimeline_inv input i s Hs) as [tpl Ht].
  rewrite (lookup_enforcedTimeline input i tpl Ht) in Hs.
  injection Hs as <-. by destruct (input !! i).
Qed.

(** C4. For every update payload with a timeline, the cursor written to the
    patch is the number of steps of the normalised 7 step timeline with
    [isCompleted] set, plus 1 if any of them has [isInProgress] set, clamped
    to [1..7], and the total is 7; the flags of a normalised step are those of
    the supplied step at the same index (false when it is missing).  When the
    payload has no status, the status is derived from the percentage
    [current / 7 * 100] through the thresholds 100, 85, 70, 30.  In
    particular steps 1 to 3 completed, step 4 in progress and steps 5 to 7
    omitted give cursor 4 of 7 and status In Progress. *)
Theorem updateOrder_recomputed_cursor (b : UpdateBody) (input : list StepInput) :
  ub_timeline b = Some input →
  let tl := enforcedTimeline input in
  let n := Z.of_nat (count isCompleted tl)
           + (if existsb isInProgress tl then 1 else 0) in
  let cur := Z.min (Z.max n 1) 7 in
  up_progress (updateOrder b) = Some (mkBodyProgress (Some cur) (Some 7)) ∧
  1 ≤ cur ≤ 7 ∧
  (∀ i s, tl !! i = Some s →
     isCompleted s = truthy_bool (input !! i ≫= in_isCompleted) ∧
     isInProgress s = truthy_bool (input !! i ≫= in_isInProgress)) ∧
  (truthy_str (ub_status b) = false →
     up_status (updateOrder b) = Some (statusFromPercentage cur 7) ∧
     statusFromPercentage cur 7 =
       if cur =? 7 then "Delivered" else if cur =? 6 then "Shipped"
       else if cur =? 5 then "Production" else if 3 <=? cur then "In Progress"
       else "Development") ∧
  (truthy_str (ub_status b) = true → up_status (updateOrder b) = ub_status b) ∧
  (let done := mkStepInput None None None None None None None (Some true) None None in
   let active := mkStepInput None None None None None None None None (Some true) None in
   input = [done; done; done; active] →
   cur = 4 ∧ (ub_status b = None → up_status (updateOrder b) = Some "In Progress")).
Proof.
  intros Hin tl n cur.
  assert (recomputedCurrent tl = cur) as Hcur.
  { unfold recomputedCurrent, computedCurrent, clamp, completedSteps,
      inProgressSteps. by rewrite count_pos_existsb. }
  assert (1 ≤ cur ≤ 7) as Hrange by (subst cur; lia).
  assert (up_progress (updateTimeline b) = Some (mkBodyProgress (Some cur) (Some 7))
          ∧ up_status (updateTimeline b) = ub_status b) as [Hp Hst].
  { unfold updateTimeline. rewrite Hin. cbn [up_progress up_status].
    fold tl. by rewrite Hcur. }
  assert (truthy_str (ub_status b) = false →
          up_status (updateOrder b) = Some (statusFromPercentage cur 7)) as Hderived.
  { intros Hno. unfold updateOrder, updateStatusFromProgress.
    rewrite Hp, Hst, Hno. reflexivity. }
  split.
  { unfold updateOrder, updateStatusFromProgress. rewrite Hp.
    destruct (negb (truthy_str (up_status (updateTimeline b)))); [reflexivity|exact Hp]. }
  split; [exact Hrange|].
  split; [intros i s; apply enforcedTimeline_flags|].
  split.
  { intros Hno. split; [by apply Hderived|by apply statusFromPercentage_of_7]. }
  split.
  { intros Hyes. unfold updateOrder, updateStatusFromProgress.
    rewrite Hp, Hst, Hyes. exact Hst. }
  intros done active ->.
  assert (cur = 4) as H4 by reflexivity.
  split; [exact H4|].
  intros Hnone. rewrite Hderived by (by rewrite Hnone). by rewrite H4.
Qed.

Lemma updateOrder_recomputed_cursor_witness :
  let done := mkStepInput None None None None None None None (Some true) None None in
  let active := mkStepInput None None None None None None None None (Some true) None in
  up_progress (updateOrder (mkUpdateBody None None (Some [done; done; done; active]) None))
  = Some (mkBodyProgress (Some 4) (Some 7)).
Proof.
  intros done active.
  apply (updateOrder_recomputed_cursor
           (mkUpdateBody None None (Some [done; done; done; active]) None)
           [done; done; done; active]).
  reflexivity.
Defined.

(** ** The Order model and the phase handlers *)

Lemma at_index_Some_range {A} (l : list A) (i : Z) :
  0 ≤ i < Z.of_nat (length l) → ∃ x, at_index l i = Some x.
Proof.
  intros Hi. unfold at_index. destruct (Z.ltb_spec i 0); [lia|].
  apply lookup_lt_is_Some. lia.
Qed.

Lemma length_update_at {A} (f : A → A) i (l : list A) :
  length (update_at f i l) = length l.
Proof. unfold update_at. destruct (i <? 0); [done|apply length_alter]. Qed.

Lemma at_index_update_at_eq {A} (f : A → A) i (l : list A) :
  at_index (update_at f i l) i = f <$> at_index l i.
Proof.
  unfold at_index, update_at. destruct (i <? 0); [done|].
  apply list_lookup_alter_eq.
Qed.

Lemma at_index_update_at_ne {A} (f : A → A) i j (l : list A) :
  i ≠ j → at_index (update_at f i l) j = at_index l j.
Proof.
  intros Hne. unfold at_index, update_at.
  destruct (Z.ltb_spec j 0); [done|].
  destruct (Z.ltb_spec i 0); [done|].
  apply list_lookup_alter_ne. lia.
Qed.

Lemma phaseStatusMap_table cur :
  1 ≤ cur ≤ 7 →
  phaseStatusMap cur =
    Some (if cur <=? 2 then "Development" else if cur <=? 4 then "In Progress"
          else if cur =? 5 then "Production" else if cur =? 6 then "Shipped"
          else "Delivered").
Proof.
  intros Hc.
  assert (cur = 1 ∨ cur = 2 ∨ cur = 3 ∨ cur = 4 ∨ cur = 5 ∨ cur = 6 ∨ cur = 7)
    as Hcases by lia.
  by destruct Hcases as [->|[->|[->|[->|[->|[->| ->]]]]]].
Qed.

(** C1 (amended). For every order with a 7 step timeline whose steps have
    non-empty titles (the schema requires a title) and with
    [progress.current = k], [1 <= k < progress.total] and [k < 7],
    [advancePhase] yields [progress.current = k + 1], marks the step at index
    [k - 1] Completed ([isCompleted] true, [isInProgress] false, finish date
    set), marks the step at index [k] In Progress ([isInProgress] true,
    [isLocked] false, start date set), leaves the other steps alone, sets
    [currentPhase] to the title of the step at index [k], and sets [status] to
    the entry of the cursor table for [k + 1]. *)
Theorem advancePhase_next (today : string) (o : Order) (k : Z) :
  current (progress o) = k →
  1 ≤ k < total (progress o) →
  k < 7 →
  length (timeline o) = 7%nat →
  (∀ s, s ∈ timeline o → title s ≠ "") →
  let o' := advancePhase today o in
  current (progress o') = k + 1 ∧
  total (progress o') = total (progress o) ∧
  length (timeline o') = 7%nat ∧
  (∃ prev nxt,
     at_index (timeline o) (k - 1) = Some prev ∧
     at_index (timeline o) k = Some nxt ∧
     at_index (timeline o') (k - 1) = Some (finishStep today prev) ∧
     at_index (timeline o') k = Some (startStep today nxt) ∧
     currentPhase o' = title nxt) ∧
  (∀ s, at_index (timeline o') (k - 1) = Some s →
        step_status s = "Completed" ∧ isCompleted s = true ∧
        isInProgress s = false) ∧
  (∀ s, at_index (timeline o') k = Some s →
        step_status s = "In Progress" ∧ isInProgress s = true ∧
        isLocked s = false) ∧
  (∀ i, i ≠ k - 1 → i ≠ k →
        at_index (timeline o') i = at_index (timeline o) i) ∧
  phaseStatusMap (k + 1) = Some (status o') ∧
  status o' =
    (if k + 1 <=? 2 then "Development" else if k + 1 <=? 4 then "In Progress"
     else if k + 1 =? 5 then "Production" else if k + 1 =? 6 then "Shipped"
     else "Delivered").
Proof.
  intros Hk Hrange H7 Hlen Htitles o'.
  destruct (at_index_Some_range (timeline o) (k - 1)) as [prev Hprev]; [lia|].
  destruct (at_index_Some_range (timeline o) k) as [nxt Hnxt]; [lia|].
  assert (title nxt ≠ "") as Hnonempty.
  { apply Htitles. unfold at_index in Hnxt.
    destruct (k <? 0); [done|]. by eapply list_elem_of_lookup_2. }
  assert (o' =
    updateStatus
      (mkOrder (orderId o) (status o) (title nxt)
         (mkProgress (k + 1) (total (progress o)))
         (update_at (startStep today) k
            (update_at (finishStep today) (k - 1) (timeline o)))
         (lastUpdatedBy o))) as Ho'.
  { subst o'. unfold advancePhase. rewrite Hk.
    destruct (Z.ltb_spec k (total (progress o))); [|lia].
    cbv zeta. replace (k + 1 - 1) with k by lia.
    rewrite at_index_update_at_ne, Hnxt by lia. cbn [fmap option_fmap option_map default].
    rewrite orElse_nonempty; [done|]. by apply String.eqb_neq. }
  assert (at_index (timeline o') (k - 1) = Some (finishStep today prev)) as Hfin.
  { rewrite Ho'. cbn [updateStatus timeline].
    rewrite at_index_update_at_ne, at_index_update_at_eq, Hprev by lia. done. }
  assert (at_index (timeline o') k = Some (startStep today nxt)) as Hstart.
  { rewrite Ho'. cbn [updateStatus timeline].
    rewrite at_index_update_at_eq, at_index_update_at_ne, Hnxt by lia. done. }
  assert (phaseStatusMap (k + 1) = Some (status o')) as Hstatus.
  { rewrite Ho'. cbn [updateStatus status progress current].
    rewrite phaseStatusMap_table by lia. done. }
  split; [by rewrite Ho'|].
  split; [by rewrite Ho'|].
  split.
  { rewrite Ho'. cbn [updateStatus timeline]. by rewrite !length_update_at. }
  split.
  { exists prev, nxt. repeat split; try done. by rewrite Ho'. }
  split; [intros s Hs; rewrite Hfin in Hs; by injection Hs as <-|].
  split; [intros s Hs; rewrite Hstart in Hs; by injection Hs as <-|].
  split.
  { intros i Hi1 Hi2. rewrite Ho'. cbn [updateStatus timeline].
    by rewrite !at_index_update_at_ne by lia. }
  split; [exact Hstatus|].
  rewrite phaseStatusMap_table in Hstatus by lia. by injection Hstatus as <-.
Qed.

Lemma advancePhase_next_witness :
  let o := mkOrder "ORD-2026-001" "In Progress" "Sample Approved"
             (mkProgress 4 7) (buildDefaultTimeline 3) None in
  current (progress (advancePhase "11/3/2026" o)) = 4 + 1.
Proof.
  intros o.
  apply (advancePhase_next "11/3/2026" o 4); [reflexivity|cbn; lia|lia|reflexivity|].
  intros s Hs. apply list_elem_of_In in Hs. cbn in Hs.
  intuition (subst; discriminate).
Defined.

(** C1 as stated fails: with [progress.total = 10] (the validators allow up
    to 10) and cursor 7 on a 7 step timeline, [1 <= 7 < total] holds, but
    there is no step at index 7 to mark In Progress, [currentPhase] keeps its
    old value and the status falls back to Development, the table having no
    entry for 8. *)
Lemma advancePhase_beyond_timeline_counterexample :
  let o := mkOrder "ORD-2026-001" "Delivered" "Delivered to Final Location"
             (mkProgress 7 10) (buildDefaultTimeline 6) None in
  let o' := advancePhase "11/3/2026" o in
  1 ≤ current (progress o) < total (progress o) ∧
  length (timeline o) = 7%nat ∧
  current (progress o') = 8 ∧
  at_index (timeline o') 7 = None ∧
  count isInProgress (timeline o') = 0%nat ∧
  currentPhase o' = "Delivered to Final Location" ∧
  phaseStatusMap 8 = None ∧
  status o' = "Development".
Proof. cbn. repeat split; lia. Qed.

(** C2. For every order with [progress.current >= progress.total] the advance
    handler answers with the error "Order is already at the final phase" and
    status 400, saves nothing and leaves the document as it was (progress,
    timeline, [currentPhase] and [status] unchanged); the model method, called
    on such an order, changes nothing either. *)
Theorem advanceOrderPhase_terminal (today admin orderIdParam : string) (o : Order) :
  total (progress o) ≤ current (progress o) →
  let h := advanceOrderPhase today admin orderIdParam (Some o) in
  response h = ErrorResponse "Order is already at the final phase" 400 ∧
  saved h = None ∧
  document h = Some o ∧
  advancePhase today o = o.
Proof.
  intros Hterm h. subst h. unfold advanceOrderPhase, advancePhase.
  destruct (Z.leb_spec (total (progress o)) (current (progress o))); [|lia].
  destruct (Z.ltb_spec (current (progress o)) (total (progress o))); [lia|].
  done.
Qed.

Lemma advanceOrderPhase_terminal_witness :
  let o := mkOrder "ORD-2026-001" "Delivered" "Delivered to Final Location"
             (mkProgress 7 7) (buildDefaultTimeline 6) None in
  document (advanceOrderPhase "11/3/2026" "admin-1" "ORD-2026-001" (Some o)) = Some o.
Proof.
  intros o.
  apply (advanceOrderPhase_terminal "11/3/2026" "admin-1" "ORD-2026-001" o).
  cbn. lia.
Defined.

Lemma sweep_shape ci tl i t :
  sweep ci tl !! i = Some t →
  (Z.of_nat i < ci → stepCompleted t = true) ∧
  (Z.of_nat i = ci → stepInProgress t = true) ∧
  (ci < Z.of_nat i → stepLocked t = true).
Proof.
  rewrite lookup_sweep. destruct (tl !! i) as [s|]; [|done]. intros [= <-].
  destruct (sweepStep_cases ci i s) as [[H ->]|[[H ->]|[H ->]]];
    repeat split; intros; try lia; reflexivity.
Qed.

Lemma count_zero (p : TimelineStep → bool) tl :
  Forall (λ s, p s = false) tl → count p tl = 0%nat.
Proof.
  unfold count. induction 1 as [|s tl Hs _ IH]; [done|].
  rewrite filter_cons. destruct (decide (p s = true)); [congruence|exact IH].
Qed.

(** What [updateOrderPhase] does once [findIndex] has found the phase. *)
Lemma updateOrderPhase_found_save admin orderIdParam phase explicitProgress o idx :
  findPhaseIndex phase (timeline o) = Some idx →
  let cur := match explicitProgress with
             | Some p => clamp 0 (total (progress o)) p
             | None => Z.of_nat idx + 1
             end in
  let o' := mkOrder (orderId o)
              (default "Development" (phaseStatusMap cur)) phase
              (mkProgress cur (total (progress o)))
              (sweep (cur - 1) (timeline o)) (Some admin) in
  updateOrderPhase admin orderIdParam phase explicitProgress (Some o)
  = saveAndAnswer o' ("Order " +:+ orderId o +:+ " updated to " +:+ phase).
Proof. intros Hfind. unfold updateOrderPhase. by rewrite Hfind. Qed.

Lemma saveAndAnswer_accepted o message :
  0 ≤ current (progress o) ≤ 7 →
  saveAndAnswer o message = mkHandled (Some o) (Some o) (Json200 message o).
Proof.
  intros Hr. unfold saveAndAnswer, saveRejects.
  destruct (Z.ltb_spec (current (progress o)) 0); [lia|].
  by destruct (Z.ltb_spec 7 (current (progress o))); [lia|].
Qed.

Lemma saveAndAnswer_rejected o message :
  current (progress o) < 0 ∨ 7 < current (progress o) →
  saveAndAnswer o message
  = mkHandled (Some o) None
      (SaveRejected "progress.current" (current (progress o))).
Proof.
  intros Hr. unfold saveAndAnswer, saveRejects.
  destruct (Z.ltb_spec (current (progress o)) 0); [done|].
  by destruct (Z.ltb_spec 7 (current (progress o))); [|lia].
Qed.

(** The same when the new cursor is within the range of the schema. *)
Lemma updateOrderPhase_found admin orderIdParam phase explicitProgress o idx :
  findPhaseIndex phase (timeline o) = Some idx →
  let cur := match explicitProgress with
             | Some p => clamp 0 (total (progress o)) p
             | None => Z.of_nat idx + 1
             end in
  let o' := mkOrder (orderId o)
              (default "Development" (phaseStatusMap cur)) phase
              (mkProgress cur (total (progress o)))
              (sweep (cur - 1) (timeline o)) (Some admin) in
  0 ≤ cur ≤ 7 →
  updateOrderPhase admin orderIdParam phase explicitProgress (Some o)
  = mkHandled (Some o') (Some o')
      (Json200 ("Order " +:+ orderId o +:+ " updated to " +:+ phase) o').
Proof.
  intros Hfind cur o' Hr.
  rewrite (updateOrderPhase_found_save _ _ _ _ _ _ Hfind).
  by apply saveAndAnswer_accepted.
Qed.

Lemma findPhaseIndex_first phase tl idx s :
  tl !! idx = Some s → title s = phase →
  (∀ j t, (j < idx)%nat → tl !! j = Some t → title t ≠ phase) →
  findPhaseIndex phase tl = Some idx.
Proof.
  intros Hs Ht Hfirst. unfold findPhaseIndex.
  assert (list_find (λ item, title item = phase) tl = Some (idx, s)) as ->; [|done].
  apply list_find_Some. repeat split; [done|done|].
  intros j t Hj Hlt. by apply (Hfirst j t).
Qed.

Lemma findPhaseIndex_exists phase tl :
  (∃ s, s ∈ tl ∧ title s = phase) → ∃ idx, findPhaseIndex phase tl = Some idx.
Proof.
  intros (s & Hin & Ht). unfold findPhaseIndex.
  destruct (list_find_elem_of (λ item, title item = phase) tl s Hin Ht)
    as [[idx x] ->].
  by exists idx.
Qed.

(** C5 (amended). For every order whose timeline has a step titled
    "Production Phase" at index 4 (template position 5) and no step with that
    title before it, the set-phase handler called with "Production Phase" and
    no explicit progress saves an order with [progress.current = 5],
    [currentPhase = "Production Phase"], the timeline re-swept (indices below
    4 Completed, index 4 In Progress, indices above 4 Locked) and status
    Production, whatever the cursor, phase and status were before. *)
Theorem updateOrderPhase_production (admin orderIdParam : string) (o : Order)
    (s : TimelineStep) :
  timeline o !! 4%nat = Some s →
  title s = "Production Phase" →
  (∀ j t, (j < 4)%nat → timeline o !! j = Some t → title t ≠ "Production Phase") →
  let h := updateOrderPhase admin orderIdParam "Production Phase" None (Some o) in
  ∃ o', saved h = Some o' ∧ document h = Some o' ∧
        response h = Json200 ("Order " +:+ orderId o
                              +:+ " updated to Production Phase") o' ∧
        current (progress o') = 5 ∧
        total (progress o') = total (progress o) ∧
        currentPhase o' = "Production Phase" ∧
        status o' = "Production" ∧
        timeline o' = sweep 4 (timeline o) ∧
        length (timeline o') = length (timeline o) ∧
        (∀ i t, timeline o' !! i = Some t →
           title <$> timeline o !! i = Some (title t) ∧
           ((i < 4)%nat → stepCompleted t = true) ∧
           (i = 4%nat → stepInProgress t = true) ∧
           ((4 < i)%nat → stepLocked t = true)).
Proof.
  intros Hs Ht Hfirst h. subst h.
  rewrite (updateOrderPhase_found admin orderIdParam "Production Phase" None o 4
             (findPhaseIndex_first _ _ _ _ Hs Ht Hfirst)) by (cbv zeta; lia).
  cbv zeta. change (Z.of_nat 4 + 1) with 5. change (5 - 1) with 4.
  eexists. split; [reflexivity|]. split; [reflexivity|]. split; [reflexivity|].
  cbn [progress current total currentPhase status timeline].
  do 5 (split; [reflexivity|]).
  split; [apply length_sweep|].
  intros i t Hi. split.
  - rewrite lookup_sweep in Hi. destruct (timeline o !! i) as [u|]; [|done].
    injection Hi as <-. cbn. by rewrite title_sweepStep.
  - apply sweep_shape in Hi as (Hbelow & Hat & Habove).
    repeat split; intros Hcmp; [apply Hbelow|apply Hat|apply Habove]; lia.
Qed.

Lemma updateOrderPhase_production_witness :
  let o := mkOrder "ORD-2026-001" "Development" "Offer Accepted"
             (mkProgress 1 7) (buildDefaultTimeline 0) None in
  ∃ o', saved (updateOrderPhase "admin-1" "ORD-2026-001" "Production Phase" None
                 (Some o)) = Some o' ∧
        current (progress o') = 5 ∧ status o' = "Production".
Proof.
  intros o.
  destruct (updateOrderPhase_production "admin-1" "ORD-2026-001" o
              (createStep 1 4 (mkTemplateStep 5 "Production Phase"
                 "Final product is being manufactured." "21 days")))
    as (o' & Hsaved & _ & _ & Hcur & _ & _ & Hst & _).
  - reflexivity.
  - reflexivity.
  - intros j t Hj Hl. do 4 (destruct j as [|j]; [injection Hl as <-; discriminate|]).
    lia.
  - exists o'. by repeat split.
Defined.

(** C5 as stated fails: titles supplied by the caller are kept by the update
    path, so a timeline can carry "Production Phase" at index 0 as well as at
    index 4; [findIndex] then stops at index 0 and the cursor becomes 1 with
    status Development. *)
Lemma updateOrderPhase_duplicate_title_counterexample :
  let input :=
    [mkStepInput None (Some "Production Phase") None None None None None None None None] in
  let tl := default [] (up_timeline (updateOrder (mkUpdateBody None None (Some input) None))) in
  let o := mkOrder "ORD-2026-001" "Development" "Production Phase"
             (mkProgress 1 7) tl None in
  let h := updateOrderPhase "admin-1" "ORD-2026-001" "Production Phase" None (Some o) in
  title <$> timeline o !! 4%nat = Some "Production Phase" ∧
  (current ∘ progress <$> saved h) = Some 1 ∧
  (status <$> saved h) = Some "Development" ∧
  (current ∘ progress <$> saved h) ≠ Some 5.
Proof. repeat split; discriminate. Qed.

(** C10 (amended). For every order whose timeline contains the target title
    (and whose total is not negative), the set-phase handler called with
    explicit progress 0 saves an order with [progress.current = 0], every step
    of the timeline Locked, none Completed and none In Progress, and
    [currentPhase] set to the target title; there is no step under the cursor
    (index [-1]), so no step is active and [currentPhase] names no step at
    the cursor.  Nothing is said of the other mutations. *)
Theorem updateOrderPhase_progress_zero (admin orderIdParam phase : string)
    (o : Order) :
  (∃ s, s ∈ timeline o ∧ title s = phase) →
  0 ≤ total (progress o) →
  let h := updateOrderPhase admin orderIdParam phase (Some 0) (Some o) in
  ∃ o', saved h = Some o' ∧ document h = Some o' ∧
        current (progress o') = 0 ∧
        currentPhase o' = phase ∧
        length (timeline o') = length (timeline o) ∧
        Forall (λ t, stepLocked t = true) (timeline o') ∧
        count isCompleted (timeline o') = 0%nat ∧
        count isInProgress (timeline o') = 0%nat ∧
        count stepInProgress (timeline o') = 0%nat ∧
        at_index (timeline o') (current (progress o') - 1) = None ∧
        status o' = "Development".
Proof.
  intros Hex Htot h. subst h.
  destruct (findPhaseIndex_exists phase (timeline o) Hex) as [idx Hidx].
  rewrite (updateOrderPhase_found admin orderIdParam phase (Some 0) o idx Hidx)
    by (cbv zeta; unfold clamp; lia).
  cbv zeta. replace (clamp 0 (total (progress o)) 0) with 0 by (unfold clamp; lia).
  assert (Forall (λ t, stepLocked t = true) (sweep (0 - 1) (timeline o))) as Hlocked.
  { apply Forall_lookup_2. intros i t Hi.
    apply sweep_shape in Hi as (_ & _ & Hl). apply Hl. lia. }
  eexists. split; [reflexivity|]. split; [reflexivity|].
  cbn [progress current currentPhase timeline status].
  repeat split; try done.
  - apply length_sweep.
  - apply count_zero. eapply Forall_impl; [exact Hlocked|].
    intros t Ht. unfold stepLocked in Ht. destruct (isCompleted t); [|done].
    by rewrite !andb_false_r in Ht.
  - apply count_zero. eapply Forall_impl; [exact Hlocked|].
    intros t Ht. unfold stepLocked in Ht. destruct (isInProgress t); [|done].
    by rewrite !andb_false_r in Ht.
  - apply count_zero. eapply Forall_impl; [exact Hlocked|].
    intros t Ht. unfold stepLocked, stepInProgress in *.
    destruct (isInProgress t); [by rewrite !andb_false_r in Ht|].
    by rewrite !andb_false_r.
Qed.

Lemma updateOrderPhase_progress_zero_witness :
  let o := mkOrder "ORD-2026-001" "In Progress" "Sample Approved"
             (mkProgress 4 7) (buildDefaultTimeline 3) None in
  ∃ o', saved (updateOrderPhase "admin-1" "ORD-2026-001" "Transport Phase"
                 (Some 0) (Some o)) = Some o' ∧
        current (progress o') = 0 ∧ count isInProgress (timeline o') = 0%nat.
Proof.
  intros o.
  destruct (updateOrderPhase_progress_zero "admin-1" "ORD-2026-001"
              "Transport Phase" o)
    as (o' & Hsaved & _ & Hcur & _ & _ & _ & _ & Hnone & _).
  - exists (createStep 4 5 (mkTemplateStep 6 "Transport Phase"
              "Order has shipped. In transit to the destination country." "7 days")).
    split; [|reflexivity]. apply list_elem_of_In. cbn. tauto.
  - cbn. lia.
  - exists o'. by repeat split.
Defined.

(** C10 as stated fails in its last clause: the consistency that progress 0
    breaks does not hold after every other mutation.  The same handler called
    with the phase "Transport Phase" and explicit progress 2 saves an order
    whose one active step, the step at the cursor, is
    "Mold / Product in Development", while [currentPhase] is
    "Transport Phase". *)
Lemma updateOrderPhase_phase_mismatch_counterexample :
  let o := mkOrder "ORD-2026-001" "Development" "Offer Accepted"
             (mkProgress 1 7) (buildDefaultTimeline 0) None in
  let h := updateOrderPhase "admin-1" "ORD-2026-001" "Transport Phase"
             (Some 2) (Some o) in
  ∃ o', saved h = Some o' ∧
        current (progress o') = 2 ∧
        currentPhase o' = "Transport Phase" ∧
        count isInProgress (timeline o') = 1%nat ∧
        title <$> at_index (timeline o') (current (progress o') - 1)
          = Some "Mold / Product in Development" ∧
        title <$> at_index (timeline o') (current (progress o') - 1)
          ≠ Some (currentPhase o').
Proof. eexists. repeat split; discriminate. Qed.

(** * Further properties of the life cycle *)

(** ** The sweep and the recomputed cursor *)

Lemma count_cons (p : TimelineStep → bool) s tl :
  count p (s :: tl) = ((if p s then 1 else 0) + count p tl)%nat.
Proof.
  unfold count. rewrite filter_cons.
  destruct (decide (p s = true)) as [->|Hp]; [done|].
  by apply not_true_is_false in Hp as ->.
Qed.

Lemma sweep_cons ci s tl :
  sweep ci (s :: tl) = sweepStep ci 0 s :: sweep (ci - 1) tl.
Proof.
  unfold sweep. rewrite imap_cons. f_equal. apply imap_ext.
  intros i x _. unfold sweepStep, compose.
  destruct (Z.ltb_spec (Z.of_nat (S i)) ci), (Z.ltb_spec (Z.of_nat i) (ci - 1));
    try lia; [done|].
  destruct (Z.eqb_spec (Z.of_nat (S i)) ci), (Z.eqb_spec (Z.of_nat i) (ci - 1));
    try lia; done.
Qed.

Lemma count_isCompleted_sweep ci tl :
  Z.of_nat (count isCompleted (sweep ci tl))
  = Z.min (Z.max ci 0) (Z.of_nat (length tl)).
Proof.
  revert ci. induction tl as [|s tl IH]; intros ci; [cbn; lia|].
  rewrite sweep_cons, count_cons, Nat2Z.inj_add, IH. cbn [length].
  unfold sweepStep. change (Z.of_nat 0) with 0.
  destruct (Z.ltb_spec 0 ci); [cbn; lia|].
  destruct (Z.eqb_spec 0 ci); cbn; lia.
Qed.

Lemma count_isInProgress_sweep ci tl :
  count isInProgress (sweep ci tl)
  = if (0 <=? ci) && (ci <? Z.of_nat (length tl)) then 1%nat else 0%nat.
Proof.
  revert ci. induction tl as [|s tl IH]; intros ci.
  { cbn [length]. change (Z.of_nat 0) with 0.
    destruct (Z.leb_spec 0 ci), (Z.ltb_spec ci 0); try lia; done. }
  rewrite sweep_cons, count_cons, IH. cbn [length].
  unfold sweepStep. change (Z.of_nat 0) with 0.
  destruct (Z.ltb_spec 0 ci).
  - cbn. destruct (Z.leb_spec 0 ci), (Z.leb_spec 0 (ci - 1)); try lia.
    cbn. destruct (Z.ltb_spec ci (Z.of_nat (S (length tl)))),
      (Z.ltb_spec (ci - 1) (Z.of_nat (length tl))); try lia; done.
  - destruct (Z.eqb_spec 0 ci) as [<-|Hne].
    + cbn. done.
    + cbn. destruct (Z.leb_spec 0 ci), (Z.leb_spec 0 (ci - 1)); try lia. done.
Qed.

Lemma sweepStep_absorb a b i s : sweepStep a i (sweepStep b i s) = sweepStep a i s.
Proof. unfold sweepStep. by repeat case_match. Qed.

Lemma stepShape_sweepStep ci i s : stepShape ci i (sweepStep ci i s) = true.
Proof. unfold stepShape, sweepStep. by repeat case_match. Qed.

Lemma singleActiveAt_sweep ci tl : singleActiveAt ci (sweep ci tl).
Proof.
  intros i s. rewrite lookup_sweep. destruct (tl !! i); [|done].
  intros [= <-]. apply stepShape_sweepStep.
Qed.

Lemma stepShape_flagsAgree ci i s : stepShape ci i s = true → flagsAgree s = true.
Proof.
  unfold stepShape, flagsAgree. repeat case_match; intros ->; cbn;
    by rewrite ?orb_true_r.
Qed.

(** A timeline with the single active step shape is what the sweep makes of
    it. *)
Lemma singleActiveAt_fixed ci tl : singleActiveAt ci tl → sweep ci tl = tl.
Proof.
  intros Hshape. apply list_eq; intros i. rewrite lookup_sweep.
  destruct (tl !! i) as [s|] eqn:Hs; [|done]. cbn. f_equal.
  specialize (Hshape i s Hs). unfold stepShape in Hshape. unfold sweepStep.
  destruct s as [? ? ? ? ? ? st c p l].
  unfold stepCompleted, stepInProgress, stepLocked in Hshape. cbn in Hshape.
  repeat case_match;
    repeat (apply andb_prop in Hshape as [Hshape ?]);
    apply String.eqb_eq in Hshape; subst;
    repeat match goal with H : negb _ = true |- _ => apply negb_true_iff in H end;
    subst; reflexivity.
Qed.

Lemma sweep_sweep a b tl : sweep a (sweep b tl) = sweep a tl.
Proof.
  apply list_eq; intros i. rewrite !lookup_sweep.
  destruct (tl !! i); [|done]. cbn. by rewrite sweepStep_absorb.
Qed.

Lemma recomputedCurrent_sweep_eq ci tl :
  0 ≤ ci < Z.of_nat (length tl) → (length tl ≤ 7)%nat →
  recomputedCurrent (sweep ci tl) = ci + 1.
Proof.
  intros Hci Hlen.
  assert (completedSteps (sweep ci tl) = ci) as Hc.
  { unfold completedSteps. rewrite count_isCompleted_sweep. lia. }
  assert (inProgressSteps (sweep ci tl) = 1) as Hp.
  { unfold inProgressSteps. rewrite count_isInProgress_sweep.
    destruct (Z.leb_spec 0 ci); [|lia].
    by destruct (Z.ltb_spec ci (Z.of_nat (length tl))); [|lia]. }
  unfold recomputedCurrent, computedCurrent, clamp. rewrite Hc, Hp. cbn. lia.
Qed.

(** X1. Recomputing the cursor from a swept timeline gives the cursor back:
    for an index inside a timeline of at most 7 steps, the flags left by the
    sweep count to [currentIndex + 1], so recomputing and sweeping again
    changes nothing. *)
Theorem recomputedCurrent_sweep (currentIndex : Z) (tl : list TimelineStep) :
  0 ≤ currentIndex < Z.of_nat (length tl) →
  (length tl ≤ 7)%nat →
  completedSteps (sweep currentIndex tl) = currentIndex ∧
  inProgressSteps (sweep currentIndex tl) = 1 ∧
  recomputedCurrent (sweep currentIndex tl) = currentIndex + 1 ∧
  sweep (recomputedCurrent (sweep currentIndex tl) - 1) (sweep currentIndex tl)
  = sweep currentIndex tl.
Proof.
  intros Hci Hlen.
  assert (completedSteps (sweep currentIndex tl) = currentIndex) as Hc.
  { unfold completedSteps. rewrite count_isCompleted_sweep. lia. }
  assert (inProgressSteps (sweep currentIndex tl) = 1) as Hp.
  { unfold inProgressSteps. rewrite count_isInProgress_sweep.
    destruct (Z.leb_spec 0 currentIndex); [|lia].
    destruct (Z.ltb_spec currentIndex (Z.of_nat (length tl))); [done|lia]. }
  assert (recomputedCurrent (sweep currentIndex tl) = currentIndex + 1) as Hr
    by (by apply recomputedCurrent_sweep_eq).
  repeat split; try done.
  rewrite Hr. replace (currentIndex + 1 - 1) with currentIndex by lia.
  apply singleActiveAt_fixed, singleActiveAt_sweep.
Qed.

Lemma recomputedCurrent_sweep_witness :
  recomputedCurrent (sweep 2 (buildDefaultTimeline 5)) = 2 + 1.
Proof.
  apply (recomputedCurrent_sweep 2 (buildDefaultTimeline 5)); cbn; lia.
Defined.


Lemma updateOrder_with_timeline b input :
  ub_timeline b = Some input →
  up_timeline (updateOrder b)
    = Some (sweep (recomputedCurrent (enforcedTimeline input) - 1)
                  (enforcedTimeline input)) ∧
  up_progress (updateOrder b)
    = Some (mkBodyProgress (Some (recomputedCurrent (enforcedTimeline input)))
                           (Some 7)) ∧
  up_currentPhase (updateOrder b)
    = Some (orElse
              (default ""
                 (title <$>
                    at_index (sweep (recomputedCurrent (enforcedTimeline input) - 1)
                                    (enforcedTimeline input))
                             (recomputedCurrent (enforcedTimeline input) - 1)))
              "Offer Accepted").
Proof.
  intros Hin. unfold updateOrder, updateStatusFromProgress, updateTimeline.
  rewrite Hin. cbn [up_progress up_status].
  by destruct (negb (truthy_str (ub_status b))).
Qed.

Lemma enforcedTimeline_fields input i s :
  enforcedTimeline input !! i = Some s →
  step_id s = Z.of_nat i + 1 ∧
  String.eqb (title s) "" = false ∧
  String.eqb (description s) "" = false ∧
  String.eqb (estimatedDuration s) "" = false.
Proof.
  intros Hs. destruct (lookup_enforcedTimeline_inv input i s Hs) as [tpl Ht].
  rewrite (lookup_enforcedTimeline input i tpl Ht) in Hs. injection Hs as <-.
  assert (tpl_id tpl = Z.of_nat i + 1 ∧
          String.eqb (tpl_title tpl) "" = false ∧
          String.eqb (tpl_description tpl) "" = false ∧
          String.eqb (tpl_estimatedDuration tpl) "" = false) as (Hid & Hti & Hde & Hdu).
  { revert Ht. do 7 (destruct i as [|i]; [by intros [= <-]|]). done. }
  destruct (input !! i) as [step|]; [|done].
  cbn. rewrite Ht. cbn. split; [done|].
  unfold orElse at 1 3 5.
  repeat split; case_match; done.
Qed.

(** ** updateOrder: what is written *)

(** X3. Whatever timeline an update supplies, the patch carries a timeline of
    exactly 7 steps with the single active step shape at the written cursor:
    one step In Progress, at index [current - 1], the steps before it
    Completed, the later ones Locked, flags agreeing with the status on every
    step; the ids are 1 to 7 and no title, description or duration is empty;
    [currentPhase] is the title of the active step (the 'Offer Accepted'
    fallback is never needed), and the cursor recomputed from the written
    timeline is the written cursor. *)
Theorem updateOrder_wellformed (b : UpdateBody) (input : list StepInput) :
  ub_timeline b = Some input →
  ∃ tl cur active,
    up_timeline (updateOrder b) = Some tl ∧
    up_progress (updateOrder b) = Some (mkBodyProgress (Some cur) (Some 7)) ∧
    1 ≤ cur ≤ 7 ∧
    length tl = 7%nat ∧
    singleActiveAt (cur - 1) tl ∧
    Forall (λ s, flagsAgree s = true) tl ∧
    count isInProgress tl = 1%nat ∧
    Z.of_nat (count isCompleted tl) = cur - 1 ∧
    at_index tl (cur - 1) = Some active ∧
    stepInProgress active = true ∧
    up_currentPhase (updateOrder b) = Some (title active) ∧
    recomputedCurrent tl = cur ∧
    (∀ i s, tl !! i = Some s →
       step_id s = Z.of_nat i + 1 ∧ title s ≠ "" ∧ description s ≠ "" ∧
       estimatedDuration s ≠ "").
Proof.
  intros Hin.
  destruct (updateOrder_with_timeline b input Hin) as (Htl & Hp & Hph).
  set (e := enforcedTimeline input) in *.
  set (cur := recomputedCurrent e) in *.
  pose proof (recomputedCurrent_range e) as Hrange. fold cur in Hrange.
  assert (length e = 7%nat) as Hlen by apply length_enforcedTimeline.
  assert (0 ≤ cur - 1 < Z.of_nat (length (sweep (cur - 1) e))) as Hidx.
  { rewrite length_sweep, Hlen. lia. }
  destruct (at_index_Some_range _ _ Hidx) as [active Hactive].
  assert (∀ i s, sweep (cur - 1) e !! i = Some s →
       step_id s = Z.of_nat i + 1 ∧ title s ≠ "" ∧ description s ≠ "" ∧
       estimatedDuration s ≠ "") as Hfields.
  { intros i s. rewrite lookup_sweep. destruct (e !! i) as [s0|] eqn:Hs0; [|done].
    intros [= <-]. destruct (enforcedTimeline_fields input i s0 Hs0)
      as (Hid & Hti & Hde & Hdu).
    apply String.eqb_neq in Hti, Hde, Hdu.
    unfold sweepStep. by repeat case_match. }
  assert (stepInProgress active = true) as Hip.
  { pose proof Hactive as Ha.
    replace (cur - 1) with (Z.of_nat (Z.to_nat (cur - 1))) in Ha at 2 by lia.
    rewrite at_index_nat in Ha. apply sweep_shape in Ha as (_ & Hc & _).
    apply Hc. lia. }
  exists (sweep (cur - 1) e), cur, active.
  split; [exact Htl|]. split; [exact Hp|]. split; [exact Hrange|].
  split; [by rewrite length_sweep|].
  split; [apply singleActiveAt_sweep|].
  split.
  { apply Forall_lookup_2. intros i s Hs.
    eapply stepShape_flagsAgree, singleActiveAt_sweep, Hs. }
  split.
  { rewrite count_isInProgress_sweep, Hlen.
    destruct (Z.leb_spec 0 (cur - 1)); [|lia].
    destruct (Z.ltb_spec (cur - 1) (Z.of_nat 7)); [done|lia]. }
  split; [rewrite count_isCompleted_sweep, Hlen; lia|].
  split; [exact Hactive|]. split; [exact Hip|].
  split.
  { rewrite Hph, Hactive. cbn. rewrite orElse_nonempty; [done|].
    unfold at_index in Hactive. destruct (cur - 1 <? 0); [done|].
    apply String.eqb_neq. by eapply Hfields. }
  split; [|exact Hfields].
  replace cur with (cur - 1 + 1) at 2 by lia.
  apply recomputedCurrent_sweep_eq; lia.
Qed.

Lemma updateOrder_wellformed_witness :
  ∃ tl, up_timeline (updateOrder
          (mkUpdateBody None None
             (Some [mkStepInput None None None None None None None (Some true) None None])
             None)) = Some tl ∧ length tl = 7%nat.
Proof.
  destruct (updateOrder_wellformed
              (mkUpdateBody None None
                 (Some [mkStepInput None None None None None None None (Some true) None None])
                 None)
              [mkStepInput None None None None None None None (Some true) None None]
              eq_refl)
    as (tl & cur & active & Htl & _ & _ & Hlen & _).
  exists tl. by split.
Defined.

Lemma enforcedTimeline_toInput tl :
  length tl = 7%nat →
  (∀ i s, tl !! i = Some s →
     step_id s = Z.of_nat i + 1 ∧ title s ≠ "" ∧ description s ≠ "" ∧
     estimatedDuration s ≠ "" ∧ step_status s ≠ "") →
  enforcedTimeline (toInput <$> tl) = tl.
Proof.
  intros Hlen Hfields. apply list_eq; intros i.
  destruct (defaultTimeline !! i) as [tpl|] eqn:Ht.
  - rewrite (lookup_enforcedTimeline _ i tpl Ht), list_lookup_fmap.
    destruct (tl !! i) as [s|] eqn:Hs.
    + cbn. f_equal. destruct (Hfields i s Hs) as (Hid & Hti & Hde & Hdu & Hst).
      apply String.eqb_neq in Hti, Hde, Hdu, Hst.
      assert (tpl_id tpl = Z.of_nat i + 1) as Htid.
      { revert Ht. clear. do 7 (destruct i as [|i]; [by intros [= <-]|]). done. }
      destruct s as [sid sti sde sdu ssd sfd sst sc sp sl]. cbn in *.
      unfold or_str, truthy_str. cbn. rewrite Hti, Hde, Hdu, Hst. cbn.
      unfold orElse. rewrite Hti, Hde, Hdu. subst sid. rewrite Htid.
      assert (∀ x, (if ((if negb (x =? "") then x else "") =? "")%string then ""
                    else if negb (x =? "")%string then x else "") = x) as Hdate.
      { intros x. destruct (String.eqb_spec x "") as [->|Hx]; [done|].
        cbn. by apply String.eqb_neq in Hx as ->. }
      rewrite !Hdate. by destruct sl.
    + apply lookup_ge_None in Hs. apply lookup_lt_Some in Ht. cbn in Ht. lia.
  - unfold enforcedTimeline. rewrite list_lookup_imap, Ht. cbn.
    symmetry. apply lookup_ge_None. apply lookup_ge_None in Ht. cbn in Ht. lia.
Qed.

(** X4. Sending back the timeline of an update patch as it is (every field
    present) is stable: the second update writes the same timeline, the same
    cursor and the same [currentPhase]. *)
Theorem updateOrder_roundtrip (b b' : UpdateBody) (input : list StepInput)
    (tl : list TimelineStep) :
  ub_timeline b = Some input →
  up_timeline (updateOrder b) = Some tl →
  ub_timeline b' = Some (toInput <$> tl) →
  up_timeline (updateOrder b') = Some tl ∧
  up_progress (updateOrder b') = up_progress (updateOrder b) ∧
  up_currentPhase (updateOrder b') = up_currentPhase (updateOrder b).
Proof.
  intros Hin Htl Hin'.
  destruct (updateOrder_with_timeline b input Hin) as (Htl0 & Hp & Hph).
  destruct (updateOrder_with_timeline b' _ Hin') as (Htl' & Hp' & Hph').
  rewrite Htl in Htl0. injection Htl0 as Htl0.
  set (e := enforcedTimeline input) in *.
  set (cur := recomputedCurrent e) in *.
  pose proof (recomputedCurrent_range e) as Hrange. fold cur in Hrange.
  assert (length e = 7%nat) as Hlen by apply length_enforcedTimeline.
  assert (enforcedTimeline (toInput <$> tl) = tl) as Hfix.
  { apply enforcedTimeline_toInput; [by rewrite Htl0, length_sweep|].
    intros i s. rewrite Htl0, lookup_sweep.
    destruct (e !! i) as [s0|] eqn:Hs0; [|done].
    intros [= <-]. destruct (enforcedTimeline_fields input i s0 Hs0)
      as (Hid & Hti & Hde & Hdu).
    apply String.eqb_neq in Hti, Hde, Hdu.
    unfold sweepStep. by repeat case_match. }
  assert (recomputedCurrent tl = cur) as Hcur.
  { rewrite Htl0. replace cur with (cur - 1 + 1) at 2 by lia.
    apply recomputedCurrent_sweep_eq; lia. }
  rewrite Hfix, Hcur in Htl', Hp', Hph'.
  assert (sweep (cur - 1) tl = tl) as Hsw.
  { rewrite Htl0. apply sweep_sweep. }
  rewrite Hsw in Htl', Hph'.
  split; [exact Htl'|]. split; [by rewrite Hp', Hp|].
  rewrite Hph', Hph. by rewrite <- Htl0.
Qed.

Lemma updateOrder_roundtrip_witness :
  let b := mkUpdateBody None None
             (Some [mkStepInput None (Some "Quote signed") None None None None
                                None (Some true) None None]) None in
  let tl := default [] (up_timeline (updateOrder b)) in
  up_timeline (updateOrder (mkUpdateBody None None (Some (toInput <$> tl)) None))
  = Some tl.
Proof.
  intros b tl.
  apply (updateOrder_roundtrip b
           (mkUpdateBody None None (Some (toInput <$> tl)) None)
           [mkStepInput None (Some "Quote signed") None None None None
                        None (Some true) None None] tl); reflexivity.
Defined.

(** X5. Only the first 7 supplied steps count: an update whose timeline is cut
    after its seventh element writes the same patch. *)
Theorem updateOrder_ignores_extra_steps (st : option string)
    (p : option BodyProgress) (input : list StepInput) (phase : option string) :
  enforcedTimeline input = enforcedTimeline (take 7 input) ∧
  updateOrder (mkUpdateBody st p (Some input) phase)
  = updateOrder (mkUpdateBody st p (Some (take 7 input)) phase).
Proof.
  assert (enforcedTimeline input = enforcedTimeline (take 7 input)) as He.
  { apply list_eq; intros i.
    destruct (defaultTimeline !! i) as [tpl|] eqn:Ht.
    - rewrite !(lookup_enforcedTimeline _ i tpl Ht).
      apply lookup_lt_Some in Ht. cbn in Ht.
      by rewrite lookup_take_lt by lia.
    - unfold enforcedTimeline. by rewrite !list_lookup_imap, Ht. }
  split; [exact He|].
  unfold updateOrder, updateTimeline. cbn [ub_timeline ub_status].
  by rewrite <- He.
Qed.

(** X6. On the standard total of 7 the two status policies agree: for every
    cursor from 1 to 7 the percentage thresholds of the update path give the
    status of the cursor table used by advance and set-phase, so an update
    with a timeline and no status writes the status that [updateStatus] gives
    an order at the written cursor. *)
Theorem status_policies_agree_on_7 (cur : Z) :
  1 ≤ cur ≤ 7 →
  phaseStatusMap cur = Some (statusFromPercentage cur 7) ∧
  (∀ o, current (progress o) = cur →
        status (updateStatus o) = statusFromPercentage cur 7) ∧
  (∀ b input,
     ub_timeline b = Some input → truthy_str (ub_status b) = false →
     up_progress (updateOrder b) = Some (mkBodyProgress (Some cur) (Some 7)) →
     up_status (updateOrder b) = phaseStatusMap cur).
Proof.
  intros Hc.
  assert (phaseStatusMap cur = Some (statusFromPercentage cur 7)) as Hagree.
  { assert (cur = 1 ∨ cur = 2 ∨ cur = 3 ∨ cur = 4 ∨ cur = 5 ∨ cur = 6 ∨ cur = 7)
      as Hcases by lia.
    by destruct Hcases as [->|[->|[->|[->|[->|[->| ->]]]]]]. }
  split; [exact Hagree|]. split.
  { intros o Ho. unfold updateStatus. cbn [status]. by rewrite Ho, Hagree. }
  intros b input Hin Hno Hp.
  destruct (updateOrder_with_timeline b input Hin) as (_ & Hp' & _).
  rewrite Hp' in Hp. injection Hp as Hcur.
  unfold updateOrder, updateStatusFromProgress, updateTimeline.
  rewrite Hin. cbn [up_progress up_status bp_current bp_total].
  rewrite Hno. cbn [negb up_status]. by rewrite Hcur, Hagree.
Qed.

Lemma status_policies_agree_on_7_witness :
  phaseStatusMap 5 = Some (statusFromPercentage 5 7).
Proof. apply (status_policies_agree_on_7 5). lia. Defined.

Lemma statusRank_percentage cur tot :
  statusRank (statusFromPercentage cur tot) =
    if percentAtLeast cur tot 100 then 4%nat
    else if percentAtLeast cur tot 85 then 3%nat
    else if percentAtLeast cur tot 70 then 2%nat
    else if percentAtLeast cur tot 30 then 1%nat else 0%nat.
Proof. unfold statusFromPercentage. by repeat case_match. Qed.

Lemma percentAtLeast_exact (cur tot : Z) :
  1 ≤ tot ≤ 100 → 0 ≤ cur ≤ 100 →
  percentAtLeast cur tot 100 = (100 * tot <=? 100 * cur) ∧
  percentAtLeast cur tot 85 = (85 * tot <=? 100 * cur) ∧
  percentAtLeast cur tot 70 = (70 * tot <=? 100 * cur) ∧
  percentAtLeast cur tot 30 = (30 * tot <=? 100 * cur).
Proof.
  intros Ht Hc.
  assert (forallb (λ t, forallb (λ c,
            let cz := Z.of_nat c in
            let tz := Z.of_nat t in
            bool_decide (percentAtLeast cz tz 100 = (100 * tz <=? 100 * cz))
            && bool_decide (percentAtLeast cz tz 85 = (85 * tz <=? 100 * cz))
            && bool_decide (percentAtLeast cz tz 70 = (70 * tz <=? 100 * cz))
            && bool_decide (percentAtLeast cz tz 30 = (30 * tz <=? 100 * cz)))
              (seq 0 101)) (seq 1 100) = true) as Hall
    by (vm_compute; reflexivity).
  rewrite forallb_forall in Hall.
  specialize (Hall (Z.to_nat tot) ltac:(apply in_seq; lia)).
  rewrite forallb_forall in Hall.
  specialize (Hall (Z.to_nat cur) ltac:(apply in_seq; lia)).
  cbv zeta in Hall. rewrite !Z2Nat.id in Hall by lia.
  apply andb_prop in Hall as [Hall H30]. apply andb_prop in Hall as [Hall H70].
  apply andb_prop in Hall as [H100 H85].
  apply bool_decide_eq_true in H100, H85, H70, H30. done.
Qed.

(** X7. On totals from 1 to 100 and cursors from 0 to 100 (the request
    validators admit totals up to 10 and cursors up to 7) the percentage
    policy, computed in double arithmetic as the code does, is monotone: more
    progress never gives an earlier status; the status is Delivered exactly
    when the cursor has reached the total, and Development exactly below 30
    percent. *)
Theorem statusFromPercentage_monotone (c1 c2 tot : Z) :
  1 ≤ tot ≤ 100 →
  0 ≤ c1 →
  c1 ≤ c2 →
  c2 ≤ 100 →
  (statusRank (statusFromPercentage c1 tot)
   ≤ statusRank (statusFromPercentage c2 tot))%nat ∧
  (statusFromPercentage c1 tot = "Delivered" ↔ tot ≤ c1) ∧
  (statusFromPercentage c1 tot = "Development" ↔ 100 * c1 < 30 * tot).
Proof.
  intros Htot H0 Hle H100.
  destruct (percentAtLeast_exact c1 tot Htot ltac:(lia)) as (Ha1 & Hb1 & Hc1 & Hd1).
  destruct (percentAtLeast_exact c2 tot Htot ltac:(lia)) as (Ha2 & Hb2 & Hc2 & Hd2).
  split; [|split].
  - rewrite !statusRank_percentage, Ha1, Hb1, Hc1, Hd1, Ha2, Hb2, Hc2, Hd2.
    repeat match goal with
           | |- context [?a <=? ?b] => destruct (Z.leb_spec a b)
           end; lia.
  - unfold statusFromPercentage. rewrite Ha1, Hb1, Hc1, Hd1.
    repeat match goal with
           | |- context [?a <=? ?b] => destruct (Z.leb_spec a b)
           end; split; intros; try done; lia.
  - unfold statusFromPercentage. rewrite Ha1, Hb1, Hc1, Hd1.
    repeat match goal with
           | |- context [?a <=? ?b] => destruct (Z.leb_spec a b)
           end; split; intros; try done; lia.
Qed.

Lemma statusFromPercentage_monotone_witness :
  (statusRank (statusFromPercentage 3 10)
   ≤ statusRank (statusFromPercentage 9 10))%nat.
Proof. apply (statusFromPercentage_monotone 3 9 10); lia. Defined.

(** ** advancePhase: invariants *)

Lemma advancePhase_active today o :
  current (progress o) < total (progress o) →
  current (progress (advancePhase today o)) = current (progress o) + 1 ∧
  total (progress (advancePhase today o)) = total (progress o) ∧
  orderId (advancePhase today o) = orderId o ∧
  lastUpdatedBy (advancePhase today o) = lastUpdatedBy o ∧
  timeline (advancePhase today o)
  = update_at (startStep today) (current (progress o))
      (update_at (finishStep today) (current (progress o) - 1) (timeline o)).
Proof.
  intros Hlt. unfold advancePhase.
  destruct (Z.ltb_spec (current (progress o)) (total (progress o))); [|lia].
  cbv zeta. cbn [updateStatus progress current total orderId lastUpdatedBy timeline].
  replace (current (progress o) + 1 - 1) with (current (progress o)) by lia.
  done.
Qed.

Lemma advancePhase_terminal today o :
  total (progress o) ≤ current (progress o) → advancePhase today o = o.
Proof.
  intros Hge. unfold advancePhase.
  by destruct (Z.ltb_spec (current (progress o)) (total (progress o))); [lia|].
Qed.

(** X8. [advancePhase] keeps the single active step shape: if the timeline has
    it at the cursor, then after an advance it has it at the new cursor
    (status and all three flags), whatever the length of the timeline and the
    total are. *)
Theorem advancePhase_keeps_shape (today : string) (o : Order) :
  singleActiveAt (current (progress o) - 1) (timeline o) →
  singleActiveAt (current (progress (advancePhase today o)) - 1)
                 (timeline (advancePhase today o)) ∧
  length (timeline (advancePhase today o)) = length (timeline o).
Proof.
  intros Hshape.
  destruct (Z.lt_ge_cases (current (progress o)) (total (progress o))) as [Hlt|Hge];
    [|by rewrite advancePhase_terminal].
  destruct (advancePhase_active today o Hlt) as (-> & _ & _ & _ & ->).
  set (cur := current (progress o)) in *.
  split; [|by rewrite !length_update_at].
  replace (cur + 1 - 1) with cur by lia.
  intros i s' Hs'. rewrite <- at_index_nat in Hs'.
  destruct (Z.eq_dec (Z.of_nat i) cur) as [Hi|Hi].
  - rewrite Hi, at_index_update_at_eq, at_index_update_at_ne in Hs' by lia.
    rewrite <- Hi, at_index_nat in Hs'.
    destruct (timeline o !! i) as [s|] eqn:Hs; [|done].
    injection Hs' as <-. specialize (Hshape i s Hs).
    unfold stepShape in *.
    destruct (Z.ltb_spec (Z.of_nat i) (cur - 1)); [lia|].
    destruct (Z.eqb_spec (Z.of_nat i) (cur - 1)); [lia|].
    destruct (Z.ltb_spec (Z.of_nat i) cur); [lia|].
    destruct (Z.eqb_spec (Z.of_nat i) cur); [|lia].
    unfold stepLocked in Hshape. unfold stepInProgress, startStep. cbn.
    destruct (isCompleted s); [|done]. by rewrite !andb_false_r in Hshape.
  - rewrite at_index_update_at_ne in Hs' by lia.
    destruct (Z.eq_dec (Z.of_nat i) (cur - 1)) as [Hj|Hj].
    + rewrite Hj, at_index_update_at_eq in Hs'.
      rewrite <- Hj, at_index_nat in Hs'.
      destruct (timeline o !! i) as [s|] eqn:Hs; [|done].
      injection Hs' as <-. specialize (Hshape i s Hs).
      unfold stepShape in *.
      destruct (Z.ltb_spec (Z.of_nat i) (cur - 1)); [lia|].
      destruct (Z.eqb_spec (Z.of_nat i) (cur - 1)); [|lia].
      destruct (Z.ltb_spec (Z.of_nat i) cur); [|lia].
      unfold stepInProgress in Hshape. unfold stepCompleted, finishStep. cbn.
      destruct (isLocked s); [|done]. by rewrite !andb_false_r in Hshape.
    + rewrite at_index_update_at_ne, at_index_nat in Hs' by lia.
      specialize (Hshape i s' Hs'). unfold stepShape in *.
      destruct (Z.ltb_spec (Z.of_nat i) (cur - 1)).
      * by destruct (Z.ltb_spec (Z.of_nat i) cur); [|lia].
      * destruct (Z.eqb_spec (Z.of_nat i) (cur - 1)); [lia|].
        destruct (Z.ltb_spec (Z.of_nat i) cur); [lia|].
        by destruct (Z.eqb_spec (Z.of_nat i) cur); [lia|].
Qed.

Lemma advancePhase_keeps_shape_witness :
  let o := mkOrder "ORD-2026-001" "In Progress" "Sample Approved"
             (mkProgress 4 7) (buildDefaultTimeline 3) None in
  length (timeline (advancePhase "11/3/2026" o)) = length (timeline o).
Proof.
  intros o. apply (advancePhase_keeps_shape "11/3/2026" o).
  intros i s Hs. do 7 (destruct i as [|i]; [by injection Hs as <-|]). done.
Defined.

Lemma advancePhase_iter_current today o n :
  current (progress o) ≤ total (progress o) →
  current (progress (Nat.iter n (advancePhase today) o))
  = Z.min (current (progress o) + Z.of_nat n) (total (progress o)) ∧
  total (progress (Nat.iter n (advancePhase today) o)) = total (progress o) ∧
  orderId (Nat.iter n (advancePhase today) o) = orderId o.
Proof.
  intros Hle. induction n as [|n (IHc & IHt & IHo)]; [cbn; split; [lia|done]|].
  rewrite Nat.iter_succ. set (o' := Nat.iter n (advancePhase today) o) in *.
  destruct (Z.lt_ge_cases (current (progress o')) (total (progress o'))) as [Hlt|Hge].
  - destruct (advancePhase_active today o' Hlt) as (-> & -> & -> & _).
    repeat split; [lia|done|done].
  - rewrite advancePhase_terminal by done. repeat split; [lia|done|done].
Qed.

(** X9. Repeated advancing moves the cursor one step at a time up to the total
    and never beyond: after [n] calls an order that started with
    [current <= total] has cursor [min (current + n) total], total and order id
    unchanged; once [n >= total - current] calls were made, the advance handler
    rejects the order with status 400 and saves nothing. *)
Theorem advancePhase_iterated (today admin orderIdParam : string) (o : Order)
    (n : nat) :
  current (progress o) ≤ total (progress o) →
  let o' := Nat.iter n (advancePhase today) o in
  current (progress o')
  = Z.min (current (progress o) + Z.of_nat n) (total (progress o)) ∧
  current (progress o) ≤ current (progress o') ≤ total (progress o') ∧
  total (progress o') = total (progress o) ∧
  orderId o' = orderId o ∧
  (total (progress o) - current (progress o) ≤ Z.of_nat n →
   advancePhase today o' = o' ∧
   advanceOrderPhase today admin orderIdParam (Some o')
   = mkHandled (Some o') None
       (ErrorResponse "Order is already at the final phase" 400)).
Proof.
  intros Hle o'.
  destruct (advancePhase_iter_current today o n Hle) as (Hc & Ht & Ho).
  fold o' in Hc, Ht, Ho.
  split; [exact Hc|]. split; [lia|]. split; [exact Ht|]. split; [exact Ho|].
  intros Hn. split; [apply advancePhase_terminal; lia|].
  unfold advanceOrderPhase.
  by destruct (Z.leb_spec (total (progress o')) (current (progress o'))); [|lia].
Qed.

Lemma advancePhase_iterated_witness :
  let o := mkOrder "ORD-2026-001" "Development" "Offer Accepted"
             (mkProgress 1 7) (buildDefaultTimeline 0) None in
  current (progress (Nat.iter 9 (advancePhase "11/3/2026") o))
  = Z.min (1 + Z.of_nat 9) 7.
Proof.
  intros o.
  apply (advancePhase_iterated "11/3/2026" "admin-1" "ORD-2026-001" o 9).
  cbn. lia.
Defined.

(** X10. What the two phase handlers save.  Without a document they answer 404
    "Order <id> not found"; whenever they answer with an error of their own
    nothing is saved and the document is left as it was found; when the save
    is refused, because the new cursor is outside the range 0 to 7 of the
    schema, nothing is saved either and the change stays in memory only;
    whenever they answer 200 the saved document is the one returned, its
    cursor is within 0 to 7, it carries the admin as [lastUpdatedBy] and it
    keeps the order id and the total. *)
Theorem phase_handlers_save_or_reject (today admin orderIdParam phase : string)
    (explicitProgress : option Z) (found : option Order) (h : Handled) :
  h = advanceOrderPhase today admin orderIdParam found ∨
  h = updateOrderPhase admin orderIdParam phase explicitProgress found →
  (found = None →
     response h = ErrorResponse ("Order " +:+ orderIdParam +:+ " not found") 404) ∧
  match response h with
  | ErrorResponse _ _ => saved h = None ∧ document h = found
  | SaveRejected path value =>
      saved h = None ∧ path = "progress.current" ∧ (value < 0 ∨ 7 < value) ∧
      statusCodeOf (response h) = 400 ∧
      ∃ o d, found = Some o ∧ document h = Some d ∧
             current (progress d) = value ∧ orderId d = orderId o
  | Json200 _ data =>
      saved h = Some data ∧ document h = Some data ∧
      0 ≤ current (progress data) ≤ 7 ∧
      lastUpdatedBy data = Some admin ∧
      ∃ o, found = Some o ∧ orderId data = orderId o ∧
           total (progress data) = total (progress o)
  end.
Proof.
  assert (∀ o d message,
            lastUpdatedBy d = Some admin → orderId d = orderId o →
            total (progress d) = total (progress o) →
            match response (saveAndAnswer d message) with
            | ErrorResponse _ _ =>
                saved (saveAndAnswer d message) = None ∧
                document (saveAndAnswer d message) = Some o
            | SaveRejected path value =>
                saved (saveAndAnswer d message) = None ∧
                path = "progress.current" ∧ (value < 0 ∨ 7 < value) ∧
                statusCodeOf (response (saveAndAnswer d message)) = 400 ∧
                ∃ o0 d0, Some o = Some o0 ∧
                         document (saveAndAnswer d message) = Some d0 ∧
                         current (progress d0) = value ∧ orderId d0 = orderId o0
            | Json200 _ data =>
                saved (saveAndAnswer d message) = Some data ∧
                document (saveAndAnswer d message) = Some data ∧
                0 ≤ current (progress data) ≤ 7 ∧
                lastUpdatedBy data = Some admin ∧
                ∃ o0, Some o = Some o0 ∧ orderId data = orderId o0 ∧
                      total (progress data) = total (progress o0)
            end) as Hsave.
  { intros o d message Hadmin Hid Htot. unfold saveAndAnswer, saveRejects.
    destruct (Z.ltb_spec (current (progress d)) 0) as [Hneg|Hnn].
    - cbn. repeat split; [by left|]. by exists o, d.
    - destruct (Z.ltb_spec 7 (current (progress d))) as [Hbig|Hle].
      + cbn. repeat split; [by right|]. by exists o, d.
      + cbn. repeat split; [done|done|done|]. by exists o. }
  intros [-> | ->].
  - unfold advanceOrderPhase. destruct found as [o|]; [|done].
    split; [done|].
    destruct (Z.leb_spec (total (progress o)) (current (progress o))); [done|].
    cbv zeta. destruct (advancePhase_active today o) as (_ & Ht & Ho & _); [lia|].
    by apply Hsave.
  - unfold updateOrderPhase. destruct found as [o|]; [|done].
    split; [done|].
    destruct (findPhaseIndex phase (timeline o)); [|done].
    cbv zeta. by apply Hsave.
Qed.

Lemma phase_handlers_save_or_reject_witness :
  response (advanceOrderPhase "11/3/2026" "admin-1" "ORD-2026-404" None)
  = ErrorResponse ("Order " +:+ "ORD-2026-404" +:+ " not found") 404.
Proof.
  apply (phase_handlers_save_or_reject "11/3/2026" "admin-1" "ORD-2026-404"
           "Production Phase" None None
           (advanceOrderPhase "11/3/2026" "admin-1" "ORD-2026-404" None));
    [by left|reflexivity].
Defined.

(** ** updateOrderPhase: errors, consistency, idempotence *)

Lemma findPhaseIndex_None phase tl :
  findPhaseIndex phase tl = None ↔ ∀ s, s ∈ tl → title s ≠ phase.
Proof.
  unfold findPhaseIndex. rewrite fmap_None, list_find_None, Forall_forall.
  done.
Qed.

Lemma findPhaseIndex_Some phase tl idx :
  findPhaseIndex phase tl = Some idx ↔
  ∃ s, tl !! idx = Some s ∧ title s = phase ∧
       ∀ j t, tl !! j = Some t → (j < idx)%nat → title t ≠ phase.
Proof.
  unfold findPhaseIndex. split.
  - intros Hf. apply fmap_Some in Hf as ([i s] & Hf & ->).
    apply list_find_Some in Hf as (Hs & Ht & Hfirst). by exists s.
  - intros (s & Hs & Ht & Hfirst).
    assert (list_find (λ item, title item = phase) tl = Some (idx, s)) as ->; [|done].
    by apply list_find_Some.
Qed.

Lemma findPhaseIndex_sweep phase ci tl :
  findPhaseIndex phase (sweep ci tl) = findPhaseIndex phase tl.
Proof.
  destruct (findPhaseIndex phase tl) as [idx|] eqn:Hf.
  - apply findPhaseIndex_Some in Hf as (s & Hs & Ht & Hfirst).
    apply findPhaseIndex_Some. exists (sweepStep ci idx s).
    split; [by rewrite lookup_sweep, Hs|].
    split; [by rewrite title_sweepStep|].
    intros j t. rewrite lookup_sweep.
    destruct (tl !! j) as [t0|] eqn:Ht0; [|done].
    intros [= <-] Hj. rewrite title_sweepStep. by eapply Hfirst.
  - apply findPhaseIndex_None. intros s Hs.
    apply list_elem_of_lookup in Hs as [i Hi]. rewrite lookup_sweep in Hi.
    destruct (tl !! i) as [s0|] eqn:Hs0; [|done]. injection Hi as <-.
    rewrite title_sweepStep.
    apply (proj1 (findPhaseIndex_None phase tl) Hf).
    by eapply list_elem_of_lookup_2.
Qed.

(** X11. The set-phase handler rejects exactly the phases that no step of the
    order carries as its title: then, and only then, it answers 400 "Invalid
    phase specified"; in that case nothing is saved and the document is
    untouched, with or without an explicit progress.  An order without
    timeline rejects every phase. *)
Theorem updateOrderPhase_invalid_phase (admin orderIdParam phase : string)
    (explicitProgress : option Z) (o : Order) :
  let h := updateOrderPhase admin orderIdParam phase explicitProgress (Some o) in
  (response h = ErrorResponse "Invalid phase specified" 400
   ↔ ∀ s, s ∈ timeline o → title s ≠ phase) ∧
  ((∀ s, s ∈ timeline o → title s ≠ phase) →
   saved h = None ∧ document h = Some o) ∧
  (timeline o = [] → response h = ErrorResponse "Invalid phase specified" 400).
Proof.
  intros h. subst h. rewrite <- findPhaseIndex_None.
  destruct (findPhaseIndex phase (timeline o)) as [idx|] eqn:Hf.
  - rewrite (updateOrderPhase_found_save admin orderIdParam phase
               explicitProgress o idx Hf).
    cbv zeta. unfold saveAndAnswer.
    split; [|split].
    + by destruct (saveRejects _).
    + done.
    + intros Hnil. rewrite Hnil in Hf. done.
  - unfold updateOrderPhase. rewrite Hf. cbn. repeat split; done.
Qed.

(** X12. Setting the phase by title alone leaves a consistent order: when the
    title first occurs at index [idx] below 7, the saved order has cursor
    [idx + 1], the single active step shape at [idx], [currentPhase] equal to
    the title of the one step In Progress, and the status of the cursor table
    for [idx + 1], whatever the order looked like before.  When the title
    first occurs at index 7 or later, the cursor would exceed the maximum of
    the schema and nothing is saved. *)
Theorem updateOrderPhase_by_title (admin orderIdParam phase : string) (o : Order)
    (idx : nat) (s : TimelineStep) :
  timeline o !! idx = Some s →
  title s = phase →
  (∀ j t, timeline o !! j = Some t → (j < idx)%nat → title t ≠ phase) →
  ((idx < 7)%nat →
   ∃ o' active,
     saved (updateOrderPhase admin orderIdParam phase None (Some o)) = Some o' ∧
     current (progress o') = Z.of_nat idx + 1 ∧
     singleActiveAt (Z.of_nat idx) (timeline o') ∧
     timeline o' !! idx = Some active ∧
     stepInProgress active = true ∧
     currentPhase o' = title active ∧
     count isInProgress (timeline o') = 1%nat ∧
     Z.of_nat (count isCompleted (timeline o')) = Z.of_nat idx ∧
     phaseStatusMap (Z.of_nat idx + 1) = Some (status o')) ∧
  ((7 ≤ idx)%nat →
   saved (updateOrderPhase admin orderIdParam phase None (Some o)) = None ∧
   response (updateOrderPhase admin orderIdParam phase None (Some o))
   = SaveRejected "progress.current" (Z.of_nat idx + 1)).
Proof.
  intros Hs Ht Hfirst.
  assert (findPhaseIndex phase (timeline o) = Some idx) as Hf.
  { apply findPhaseIndex_Some. by exists s. }
  split.
  - intros Hidx.
    rewrite (updateOrderPhase_found admin orderIdParam phase None o idx Hf)
      by (cbv zeta; lia).
    cbv zeta. replace (Z.of_nat idx + 1 - 1) with (Z.of_nat idx) by lia.
    pose proof (lookup_lt_Some _ _ _ Hs) as Hlt.
    eexists. exists (sweepStep (Z.of_nat idx) idx s).
    split; [reflexivity|].
    cbn [progress current timeline currentPhase status].
    split; [done|]. split; [apply singleActiveAt_sweep|].
    split; [by rewrite lookup_sweep, Hs|].
    split.
    { unfold sweepStep. destruct (Z.ltb_spec (Z.of_nat idx) (Z.of_nat idx)); [lia|].
      by rewrite Z.eqb_refl. }
    split; [by rewrite title_sweepStep|].
    split.
    { rewrite count_isInProgress_sweep.
      destruct (Z.leb_spec 0 (Z.of_nat idx)); [|lia].
      by destruct (Z.ltb_spec (Z.of_nat idx) (Z.of_nat (length (timeline o)))); [|lia]. }
    split; [rewrite count_isCompleted_sweep; lia|].
    rewrite phaseStatusMap_table by lia. done.
  - intros Hidx.
    rewrite (updateOrderPhase_found_save admin orderIdParam phase None o idx Hf).
    cbv zeta. rewrite saveAndAnswer_rejected by (cbn; lia). done.
Qed.

Lemma updateOrderPhase_by_title_witness :
  let o := mkOrder "ORD-2026-001" "Delivered" "Delivered to Final Location"
             (mkProgress 7 7) (buildDefaultTimeline 6) None in
  ∃ o', saved (updateOrderPhase "admin-1" "ORD-2026-001" "Sample Approved" None
                 (Some o)) = Some o' ∧ current (progress o') = 4.
Proof.
  intros o.
  destruct (updateOrderPhase_by_title "admin-1" "ORD-2026-001" "Sample Approved"
              o 3 (createStep 7 3 (mkTemplateStep 4 "Sample Approved"
                 "Customer has approved the sample. Mass production begins."
                 "2 days")))
    as [Hsmall _].
  - reflexivity.
  - reflexivity.
  - intros j t Hl Hj. do 3 (destruct j as [|j]; [injection Hl as <-; discriminate|]).
    lia.
  - destruct Hsmall as (o' & active & Hsaved & Hcur & _); [lia|].
    exists o'. by split.
Defined.

(** X13. The set-phase handler is idempotent: run again with the same phase
    and explicit progress on the order it has just saved, it saves the same
    order. *)
Theorem updateOrderPhase_idempotent (admin orderIdParam phase : string)
    (explicitProgress : option Z) (o o' : Order) :
  saved (updateOrderPhase admin orderIdParam phase explicitProgress (Some o))
    = Some o' →
  saved (updateOrderPhase admin orderIdParam phase explicitProgress (Some o'))
    = Some o'.
Proof.
  intros Hsaved.
  destruct (findPhaseIndex phase (timeline o)) as [idx|] eqn:Hf.
  - rewrite (updateOrderPhase_found_save admin orderIdParam phase
               explicitProgress o idx Hf) in Hsaved.
    cbv zeta in Hsaved. unfold saveAndAnswer in Hsaved.
    destruct (saveRejects _) eqn:Hrej in Hsaved; [done|].
    cbn [saved] in Hsaved. injection Hsaved as <-.
    erewrite updateOrderPhase_found_save;
      [|cbn [updateStatus timeline]; rewrite findPhaseIndex_sweep; exact Hf].
    cbv zeta.
    cbn [updateStatus orderId progress total timeline current status].
    rewrite sweep_sweep. unfold saveAndAnswer.
    cbn [updateStatus progress current] in Hrej. unfold saveRejects in *.
    cbn [progress current] in *. by rewrite Hrej.
  - unfold updateOrderPhase in Hsaved. by rewrite Hf in Hsaved.
Qed.

Lemma updateOrderPhase_idempotent_witness :
  let o := mkOrder "ORD-2026-001" "Delivered" "Delivered to Final Location"
             (mkProgress 7 7) (buildDefaultTimeline 6) None in
  let o' := updateStatus
              (mkOrder "ORD-2026-001" "Delivered" "Sample Approved"
                 (mkProgress 2 7) (sweep 1 (buildDefaultTimeline 6))
                 (Some "admin-1")) in
  saved (updateOrderPhase "admin-1" "ORD-2026-001" "Sample Approved" (Some 2)
           (Some o')) = Some o'.
Proof.
  intros o o'.
  apply (updateOrderPhase_idempotent "admin-1" "ORD-2026-001" "Sample Approved"
           (Some 2) o o'); reflexivity.
Defined.

(** ** createOrder and the pre-save hook *)

Lemma singleActiveAt_defaultTimelineFor cur :
  singleActiveAt (cur - 1) (defaultTimelineFor cur).
Proof.
  intros i s Hs. apply lookup_defaultTimelineFor in Hs as (t & _ & ->).
  unfold stepShape.
  destruct (createStep_cases cur i t) as [[H ->]|[[H ->]|[H ->]]].
  - by destruct (Z.ltb_spec (Z.of_nat i) (cur - 1)); [|lia].
  - destruct (Z.ltb_spec (Z.of_nat i) (cur - 1)); [lia|].
    by destruct (Z.eqb_spec (Z.of_nat i) (cur - 1)); [|lia].
  - destruct (Z.ltb_spec (Z.of_nat i) (cur - 1)); [lia|].
    by destruct (Z.eqb_spec (Z.of_nat i) (cur - 1)); [lia|].
Qed.

Lemma createOrder_no_timeline_phase b :
  noTimeline (cb_timeline b) = true →
  cb_currentPhase (createOrder b) =
    if truthy_str (cb_currentPhase b) then cb_currentPhase b
    else match at_index (defaultTimelineFor (createCursor b))
                 ((if createCursor b =? 0 then 1 else createCursor b) - 1) with
         | Some s => Some (title s)
         | None => cb_currentPhase b
         end.
Proof.
  intros Hno. unfold createOrder, createDefaults, createPhase. rewrite Hno.
  cbn [cb_currentPhase cb_timeline cb_progress default noTimeline bp_current
       truthy_num].
  destruct (truthy_str (cb_currentPhase b)); [done|].
  cbn [negb andb]. unfold defaultTimelineFor at 1.
  cbn [imap defaultTimeline noTimeline negb]. unfold id, truthy_num.
  cbn [bp_current default from_option]. unfold id.
  by destruct (createCursor b =? 0).
Qed.

(** X14. A created order names its active step: for a payload without
    timeline whose resolved cursor [c] lies in 1 to 7, the body handed to the
    model has cursor [c], a 7 step timeline with the single active step shape
    at [c - 1] and, unless the caller supplied a [currentPhase] (which is
    kept), [currentPhase] equal to the title of the one step In Progress; the
    status is passed on unchanged. *)
Theorem createOrder_names_active_step (b : CreateBody) :
  noTimeline (cb_timeline b) = true →
  1 ≤ createCursor b ≤ 7 →
  ∃ tl active,
    cb_timeline (createOrder b) = Some tl ∧
    length tl = 7%nat ∧
    singleActiveAt (createCursor b - 1) tl ∧
    at_index tl (createCursor b - 1) = Some active ∧
    stepInProgress active = true ∧
    bp_current <$> cb_progress (createOrder b) = Some (Some (createCursor b)) ∧
    (truthy_str (cb_currentPhase b) = false →
       cb_currentPhase (createOrder b) = Some (title active)) ∧
    (truthy_str (cb_currentPhase b) = true →
       cb_currentPhase (createOrder b) = cb_currentPhase b) ∧
    cb_status (createOrder b) = cb_status b.
Proof.
  intros Hno Hc.
  destruct (createOrder_no_timeline b Hno) as [Htl Hp].
  pose proof (createOrder_no_timeline_phase b Hno) as Hph.
  assert (cb_status (createOrder b) = cb_status b) as Hst.
  { unfold createOrder, createDefaults, createPhase. by rewrite Hno. }
  set (c := createCursor b) in *.
  destruct (at_index_Some_range (defaultTimelineFor c) (c - 1)) as [active Ha].
  { rewrite length_defaultTimelineFor. lia. }
  exists (defaultTimelineFor c), active.
  split; [exact Htl|]. split; [apply length_defaultTimelineFor|].
  split; [apply singleActiveAt_defaultTimelineFor|].
  split; [exact Ha|].
  split.
  { pose proof Ha as Ha'.
    replace (c - 1) with (Z.of_nat (Z.to_nat (c - 1))) in Ha' by lia.
    rewrite at_index_nat in Ha'.
    pose proof (singleActiveAt_defaultTimelineFor c _ _ Ha') as Hs.
    unfold stepShape in Hs.
    destruct (Z.ltb_spec (Z.of_nat (Z.to_nat (c - 1))) (c - 1)); [lia|].
    by destruct (Z.eqb_spec (Z.of_nat (Z.to_nat (c - 1))) (c - 1)); [|lia]. }
  split; [exact Hp|].
  split.
  { intros Hno_phase. rewrite Hph, Hno_phase.
    destruct (Z.eqb_spec c 0); [lia|]. by rewrite Ha. }
  split; [|exact Hst].
  intros Hphase. by rewrite Hph, Hphase.
Qed.

Lemma createOrder_names_active_step_witness :
  ∃ tl, cb_timeline (createOrder (mkCreateBody (Some "Production") None None None))
        = Some tl ∧ length tl = 7%nat.
Proof.
  destruct (createOrder_names_active_step
              (mkCreateBody (Some "Production") None None None))
    as (tl & active & Htl & Hlen & _); [reflexivity|change (1 ≤ 5 ≤ 7); lia|].
  exists tl. by split.
Defined.

(** X15. The cursor resolved from a status at creation agrees with the cursor
    table: for a payload without timeline and progress whose status is one of
    Development, In Progress, Production, Shipped and Delivered, in any
    letter case, the table maps the created cursor back to that status; for
    every other status (Cancelled, say) the cursor is 1, whose table status is
    Development. *)
Theorem createOrder_status_roundtrip (b : CreateBody) (s canonical : string) :
  noTimeline (cb_timeline b) = true →
  cb_progress b = None →
  cb_status b = Some s →
  canonical ∈ ["Development"; "In Progress"; "Production"; "Shipped"; "Delivered"] →
  ∃ c, cb_progress (createOrder b) = Some (mkBodyProgress (Some c) (Some 7)) ∧
       (toLowerCase s = toLowerCase canonical → phaseStatusMap c = Some canonical) ∧
       ((∀ k, k ∈ ["Development"; "In Progress"; "Production"; "Shipped"; "Delivered"] →
              toLowerCase s ≠ toLowerCase k) →
        c = 1 ∧ phaseStatusMap c = Some "Development").
Proof.
  intros Hno Hp Hs Hcanon.
  exists (statusToProgress (Some s)).
  split.
  { unfold createOrder, createDefaults, createPhase, createCursor.
    rewrite Hno, Hp, Hs. reflexivity. }
  split.
  - intros Hlow. unfold statusToProgress. cbv zeta. rewrite Hlow.
    repeat (apply elem_of_cons in Hcanon as [->|Hcanon]; [reflexivity|]).
    by apply elem_of_nil in Hcanon.
  - intros Hother. unfold statusToProgress. cbv zeta.
    assert (∀ k, k ∈ ["Development"; "In Progress"; "Production"; "Shipped"; "Delivered"] →
                 String.eqb (toLowerCase s) (toLowerCase k) = false) as Hneq.
    { intros k Hk. apply String.eqb_neq. by apply Hother. }
    change "development" with (toLowerCase "Development").
    change "in progress" with (toLowerCase "In Progress").
    change "production" with (toLowerCase "Production").
    change "shipped" with (toLowerCase "Shipped").
    change "delivered" with (toLowerCase "Delivered").
    by rewrite !Hneq by (repeat constructor).
Qed.

Lemma createOrder_status_roundtrip_witness :
  ∃ c, cb_progress (createOrder (mkCreateBody (Some "shipped") None None None))
       = Some (mkBodyProgress (Some c) (Some 7)).
Proof.
  destruct (createOrder_status_roundtrip
              (mkCreateBody (Some "shipped") None None None) "shipped" "Shipped")
    as (c & Hc & _); [reflexivity|reflexivity|reflexivity|repeat constructor|].
  by exists c.
Defined.

(** X16. [createOrder] never hands the model an empty timeline or a missing
    progress, so the pre-save hook, which only fills in a timeline for a new
    document that has none, never replaces the timeline of an order created
    through the controller. *)
Theorem createOrder_timeline_survives_preSave (b : CreateBody) :
  ∃ tl p,
    cb_timeline (createOrder b) = Some tl ∧ tl ≠ [] ∧
    cb_progress (createOrder b) = Some p ∧
    (noTimeline (cb_timeline b) = false → Some tl = cb_timeline b) ∧
    ∀ today tomorrow isNew o,
      timeline o = tl → preSave today tomorrow isNew o = o.
Proof.
  assert (∀ tl : list TimelineStep, tl ≠ [] →
            ∀ today tomorrow isNew o,
              timeline o = tl → preSave today tomorrow isNew o = o) as Hpre.
  { intros tl Hne today tomorrow isNew o Ho. unfold preSave.
    rewrite bool_decide_eq_false_2 by congruence. by rewrite andb_false_r. }
  destruct (noTimeline (cb_timeline b)) eqn:Hno.
  - destruct (createOrder_no_timeline b Hno) as [Htl _].
    exists (defaultTimelineFor (createCursor b)).
    assert (defaultTimelineFor (createCursor b) ≠ []) as Hne.
    { intros Hnil. pose proof (length_defaultTimelineFor (createCursor b)) as Hl.
      by rewrite Hnil in Hl. }
    unfold createOrder, createDefaults, createPhase in *. rewrite Hno in *.
    cbn [cb_progress cb_timeline] in *.
    eexists. split; [exact Htl|]. split; [exact Hne|].
    split; [reflexivity|]. split; [done|]. by apply Hpre.
  - destruct (cb_timeline b) as [[|s tl]|] eqn:Ht; try done.
    exists (s :: tl).
    unfold createOrder, createDefaults, createPhase. rewrite Ht. cbn [noTimeline].
    cbn [cb_progress cb_timeline]. rewrite Ht.
    eexists. split; [reflexivity|]. split; [done|].
    split; [reflexivity|]. split; [done|]. by apply Hpre.
Qed.

(** X17. The timeline that the pre-save hook gives a new order without
    timeline has no active step: its first step is Completed, the others are
    Locked, so for no cursor does it have the single active step shape.  One
    [advancePhase] from the default cursor 1 repairs it: the result has the
    shape at cursor 2, with "Mold / Product in Development" as
    [currentPhase]. *)
Theorem preSave_default_then_advance (today tomorrow day : string) (o : Order) :
  timeline o = [] →
  current (progress o) = 1 →
  1 < total (progress o) →
  let o1 := preSave today tomorrow true o in
  let o2 := advancePhase day o1 in
  length (timeline o1) = 7%nat ∧
  count isInProgress (timeline o1) = 0%nat ∧
  (∀ ci, ¬ singleActiveAt ci (timeline o1)) ∧
  current (progress o2) = 2 ∧
  singleActiveAt 1 (timeline o2) ∧
  currentPhase o2 = "Mold / Product in Development" ∧
  status o2 = "Development".
Proof.
  intros Htl Hcur Htot o1 o2.
  assert (o1 = mkOrder (orderId o) (status o) (currentPhase o) (progress o)
                 (preSaveTimeline today tomorrow) (lastUpdatedBy o)) as Ho1.
  { subst o1. unfold preSave. by rewrite Htl. }
  split; [by rewrite Ho1|]. split; [by rewrite Ho1|].
  split.
  { intros ci Hshape. rewrite Ho1 in Hshape. cbn [timeline] in Hshape.
    pose proof (Hshape 0%nat _ eq_refl) as H0.
    pose proof (Hshape 1%nat _ eq_refl) as H1.
    unfold stepShape in H0, H1.
    change (Z.of_nat 0) with 0 in H0. change (Z.of_nat 1) with 1 in H1.
    destruct (Z.ltb_spec 0 ci).
    - destruct (Z.ltb_spec 1 ci); [done|].
      destruct (Z.eqb_spec 1 ci); [done|lia].
    - destruct (Z.eqb_spec 0 ci); done. }
  subst o2. rewrite Ho1. unfold advancePhase.
  cbn [progress current total]. rewrite Hcur.
  destruct (Z.ltb_spec 1 (total (progress o))); [|lia].
  cbv zeta. repeat split.
  intros i s Hs. cbn [updateStatus timeline] in Hs.
  do 7 (destruct i as [|i]; [by injection Hs as <-|]). done.
Qed.

Lemma preSave_default_then_advance_witness :
  let o := mkOrder "ORD-2026-001" "Development" "Offer Accepted"
             (mkProgress 1 7) [] None in
  current (progress (advancePhase "11/4/2026"
                       (preSave "11/3/2026" "11/4/2026" true o))) = 2.
Proof.
  intros o.
  apply (preSave_default_then_advance "11/3/2026" "11/4/2026" "11/4/2026" o);
    [reflexivity|reflexivity|cbn; lia].
Defined.

(** ** Looking up and deleting orders *)

Lemma findOne_Some {A} (f : A → bool) coll d :
  findOne f coll = Some d → d ∈ coll ∧ f d = true.
Proof.
  unfold findOne. intros Hf. apply fmap_Some in Hf as ([i x] & Hf & ->).
  apply list_find_Some in Hf as (Hx & Hfx & _).
  split; [by eapply list_elem_of_lookup_2|done].
Qed.

Lemma findOne_None {A} (f : A → bool) coll :
  findOne f coll = None ↔ ∀ d, d ∈ coll → f d = false.
Proof.
  unfold findOne. rewrite fmap_None, list_find_None, Forall_forall.
  split; intros H d Hd; specialize (H d Hd); by destruct (f d).
Qed.

Lemma findOne_unique {A} (f : A → bool) coll z :
  (∃ y, y ∈ coll ∧ f y = true) →
  (∀ y, y ∈ coll → f y = true → y = z) →
  findOne f coll = Some z.
Proof.
  intros (y & Hy & Hfy) Huniq.
  destruct (findOne f coll) as [x|] eqn:Hx.
  - apply findOne_Some in Hx as [Hin Hfx]. f_equal. by apply Huniq.
  - rewrite (proj1 (findOne_None f coll) Hx y Hy) in Hfy. done.
Qed.

Lemma isOrderIdFormat_not_objectId value :
  isOrderIdFormat value = true → isObjectIdString value = false.
Proof.
  unfold isOrderIdFormat, isObjectIdString. cbv zeta.
  destruct (list_ascii_of_string value)
    as [|? [|? [|? [|? [|? [|? [|? [|? [|? [|? [|? [|? [|? ?]]]]]]]]]]]]];
    try done.
Qed.

Lemma findOrderByIdOrOrderId_sound identifier coll d :
  findOrderByIdOrOrderId identifier coll = Some d →
  d ∈ coll ∧ isActive d = true ∧
  (if isObjectIdString identifier
   then doc_id d = toLowerCase identifier
   else orderId (order d) = identifier).
Proof.
  unfold findOrderByIdOrOrderId, matchesId, matchesOrderId.
  intros Hd. destruct (isObjectIdString identifier);
    apply findOne_Some in Hd as [Hin Hf];
    apply andb_prop in Hf as [Hm Ha]; apply String.eqb_eq in Hm; done.
Qed.

(** X18. What the lookup by identifier returns.  A document found is an active
    document of the collection; for an identifier of 24 hexadecimal digits it
    is the one with that [_id] (whatever the [orderId]s are), otherwise one
    with that [orderId].  Nothing is found exactly when no active document
    matches in that way.  An identifier of the form ORD-dddd-ddd is never
    taken for an ObjectId, and whatever the active lookup finds the lookup for
    the hard delete finds too. *)
Theorem findOrderByIdOrOrderId_spec (identifier : string) (coll : list OrderDoc) :
  (∀ d, findOrderByIdOrOrderId identifier coll = Some d →
        d ∈ coll ∧ isActive d = true ∧
        (if isObjectIdString identifier
         then doc_id d = toLowerCase identifier
         else orderId (order d) = identifier)) ∧
  (findOrderByIdOrOrderId identifier coll = None ↔
   ∀ d, d ∈ coll → isActive d = true →
        if isObjectIdString identifier
        then doc_id d ≠ toLowerCase identifier
        else orderId (order d) ≠ identifier) ∧
  (isOrderIdFormat identifier = true → isObjectIdString identifier = false) ∧
  (is_Some (findOrderByIdOrOrderId identifier coll) →
   is_Some (findAnyOrderByIdOrOrderId identifier coll)).
Proof.
  split; [|split; [|split]];
    [|unfold findOrderByIdOrOrderId, findAnyOrderByIdOrOrderId, matchesId,
        matchesOrderId..].
  - apply findOrderByIdOrOrderId_sound.
  - destruct (isObjectIdString identifier); rewrite findOne_None;
      split; intros H d Hd.
    + intros Ha Heq. specialize (H d Hd). rewrite Ha, andb_true_r in H.
      by apply String.eqb_neq in H.
    + destruct (isActive d) eqn:Ha; [|by rewrite andb_false_r].
      rewrite andb_true_r. apply String.eqb_neq. by apply H.
    + intros Ha Heq. specialize (H d Hd). rewrite Ha, andb_true_r in H.
      by apply String.eqb_neq in H.
    + destruct (isActive d) eqn:Ha; [|by rewrite andb_false_r].
      rewrite andb_true_r. apply String.eqb_neq. by apply H.
  - apply isOrderIdFormat_not_objectId.
  - intros [d Hd]. destruct (isObjectIdString identifier);
      apply findOne_Some in Hd as [Hin Hf];
      apply andb_prop in Hf as [Hm Ha].
    + destruct (findOne (λ d0, String.eqb (doc_id d0) (toLowerCase identifier)) coll)
        eqn:Hany; [done|].
      by rewrite (proj1 (findOne_None _ _) Hany d Hin) in Hm.
    + destruct (findOne (λ d0, String.eqb (orderId (order d0)) identifier) coll)
        eqn:Hany; [done|].
      by rewrite (proj1 (findOne_None _ _) Hany d Hin) in Hm.
Qed.

Lemma elem_of_saveDoc d coll y :
  y ∈ saveDoc d coll ↔
  ∃ x, x ∈ coll ∧ y = if String.eqb (doc_id x) (doc_id d) then d else x.
Proof.
  unfold saveDoc. rewrite list_elem_of_fmap.
  split; intros (x & H1 & H2); exists x; done.
Qed.

(** X19. A soft delete hides the order from every handler that looks it up,
    and only from those: with order ids unique in the collection, after
    [deleteOrder] has succeeded the same identifier is no longer found (a
    second delete, like every other order handler, gets 404 and changes
    nothing), no document was removed, the document is still there for the
    hard delete, marked inactive and with the admin as [lastUpdatedBy], and
    every other document is as before. *)
Theorem deleteOrder_hides_order (admin identifier : string)
    (coll : list OrderDoc) (d : OrderDoc) :
  findOrderByIdOrOrderId identifier coll = Some d →
  (∀ x, x ∈ coll → orderId (order x) = orderId (order d) → doc_id x = doc_id d) →
  let d' := mkOrderDoc (doc_id d) false (setLastUpdatedBy admin (order d)) in
  let coll' := fst (deleteOrder admin identifier coll) in
  snd (deleteOrder admin identifier coll)
    = Deleted ("Order " +:+ orderId (order d) +:+ " deleted successfully") ∧
  length coll' = length coll ∧
  findOrderByIdOrOrderId identifier coll' = None ∧
  deleteOrder admin identifier coll'
    = (coll', DeleteFailed ("Order " +:+ identifier +:+ " not found") 404) ∧
  findAnyOrderByIdOrOrderId identifier coll' = Some d' ∧
  (∀ x, x ∈ coll → doc_id x ≠ doc_id d → x ∈ coll').
Proof.
  intros Hfind Huniq d' coll'.
  assert (coll' = saveDoc d' coll) as Hc'.
  { subst coll'. unfold deleteOrder. by rewrite Hfind. }
  destruct (findOrderByIdOrOrderId_sound identifier coll d Hfind)
    as (Hin & Hact & Hroute).
  assert (∀ y, y ∈ coll' →
            (if isObjectIdString identifier
             then String.eqb (doc_id y) (toLowerCase identifier)
             else String.eqb (orderId (order y)) identifier) = true →
            y = d') as Hmatch.
  { intros y Hy Hm. rewrite Hc' in Hy. apply elem_of_saveDoc in Hy as (x & Hx & ->).
    change (doc_id d') with (doc_id d) in *.
    destruct (String.eqb_spec (doc_id x) (doc_id d)) as [Heq|Hne]; [done|].
    exfalso. apply Hne.
    destruct (isObjectIdString identifier); apply String.eqb_eq in Hm.
    - congruence.
    - apply Huniq; [done|congruence]. }
  assert (d' ∈ coll') as Hd'.
  { rewrite Hc'. apply elem_of_saveDoc. exists d. split; [done|].
    change (doc_id d') with (doc_id d). by rewrite String.eqb_refl. }
  assert (findOrderByIdOrOrderId identifier coll' = None) as Hnone.
  { unfold findOrderByIdOrOrderId, matchesId, matchesOrderId in *.
    destruct (isObjectIdString identifier); apply findOne_None; intros y Hy;
      destruct (String.eqb _ _) eqn:Hm; try done;
      by rewrite (Hmatch y Hy Hm). }
  split; [unfold deleteOrder; by rewrite Hfind|].
  split; [rewrite Hc'; unfold saveDoc; by rewrite length_fmap|].
  split; [exact Hnone|].
  split; [unfold deleteOrder; by rewrite Hnone|].
  split.
  - unfold findAnyOrderByIdOrOrderId, matchesId, matchesOrderId in *.
    destruct (isObjectIdString identifier); apply findOne_unique;
      try (intros y Hy Hm; by apply Hmatch);
      exists d'; (split; [exact Hd'|]); apply String.eqb_eq; done.
  - intros x Hx Hne. rewrite Hc'. apply elem_of_saveDoc. exists x.
    split; [done|]. change (doc_id d') with (doc_id d).
    by apply String.eqb_neq in Hne as ->.
Qed.

Lemma deleteOrder_hides_order_witness :
  let o1 := mkOrder "ORD-2026-001" "Development" "Offer Accepted"
              (mkProgress 1 7) (buildDefaultTimeline 0) None in
  let o2 := mkOrder "ORD-2026-002" "Shipped" "Transport Phase"
              (mkProgress 6 7) (buildDefaultTimeline 5) None in
  let coll := [mkOrderDoc "65a1b2c3d4e5f60718293a4b" true o1;
               mkOrderDoc "65a1b2c3d4e5f60718293a4c" true o2] in
  findOrderByIdOrOrderId "ORD-2026-002"
    (fst (deleteOrder "admin-1" "ORD-2026-002" coll)) = None.
Proof.
  intros o1 o2 coll.
  apply (deleteOrder_hides_order "admin-1" "ORD-2026-002" coll
           (mkOrderDoc "65a1b2c3d4e5f60718293a4c" true o2)); [reflexivity|].
  intros x Hx Ho.
  apply elem_of_cons in Hx as [->|Hx]; [discriminate|].
  apply elem_of_cons in Hx as [->|Hx]; [reflexivity|].
  by apply elem_of_nil in Hx.
Defined.

Lemma elem_of_deleteOne id coll x :
  NoDup (doc_id <$> coll) →
  x ∈ deleteOne id coll ↔ x ∈ coll ∧ doc_id x ≠ id.
Proof.
  induction coll as [|y coll IH]; intros Hnd; cbn [deleteOne].
  { split; [by intros ?%elem_of_nil|by intros [?%elem_of_nil _]]. }
  rewrite fmap_cons in Hnd. apply NoDup_cons in Hnd as [Hy Hnd].
  destruct (String.eqb_spec (doc_id y) id) as [Heq|Hne].
  - split.
    + intros Hx. split; [by apply elem_of_cons; right|].
      intros Hid. apply Hy. rewrite Heq, <- Hid.
      apply list_elem_of_fmap. by exists x.
    + intros [Hx Hid]. apply elem_of_cons in Hx as [->|Hx]; [done|done].
  - rewrite !elem_of_cons, (IH Hnd). split.
    + intros [->|[Hx Hid]]; [split; [by left|done]|split; [by right|done]].
    + intros [[->|Hx] Hid]; [by left|by right].
Qed.

Lemma length_deleteOne id coll :
  (∃ x, x ∈ coll ∧ doc_id x = id) →
  S (length (deleteOne id coll)) = length coll.
Proof.
  induction coll as [|y coll IH]; intros (x & Hx & Hid); cbn [deleteOne].
  { by apply elem_of_nil in Hx. }
  destruct (String.eqb_spec (doc_id y) id) as [Heq|Hne]; [done|].
  cbn [length]. f_equal. apply IH.
  apply elem_of_cons in Hx as [->|Hx]; [done|by exists x].
Qed.

(** X20. The hard delete removes exactly the document it found, active or
    not: with [_id]s and order ids unique in the collection, the collection is
    one document shorter, it holds the documents with another [_id] and no
    others, and the identifier is found by neither lookup any more, so a
    second hard delete answers 404 and changes nothing. *)
Theorem hardDeleteOrder_removes (identifier : string) (coll : list OrderDoc)
    (d : OrderDoc) :
  findAnyOrderByIdOrOrderId identifier coll = Some d →
  NoDup (doc_id <$> coll) →
  (∀ x, x ∈ coll → orderId (order x) = orderId (order d) → doc_id x = doc_id d) →
  let coll' := fst (hardDeleteOrder identifier coll) in
  snd (hardDeleteOrder identifier coll)
    = Deleted ("Order " +:+ orderId (order d) +:+ " permanently deleted") ∧
  S (length coll') = length coll ∧
  (∀ x, x ∈ coll' ↔ x ∈ coll ∧ doc_id x ≠ doc_id d) ∧
  findAnyOrderByIdOrOrderId identifier coll' = None ∧
  findOrderByIdOrOrderId identifier coll' = None ∧
  hardDeleteOrder identifier coll'
    = (coll', DeleteFailed ("Order " +:+ identifier +:+ " not found") 404).
Proof.
  intros Hfind Hnd Huniq coll'.
  assert (coll' = deleteOne (doc_id d) coll) as Hc'.
  { subst coll'. unfold hardDeleteOrder. by rewrite Hfind. }
  assert (d ∈ coll ∧
          (if isObjectIdString identifier
           then doc_id d = toLowerCase identifier
           else orderId (order d) = identifier)) as [Hin Hroute].
  { unfold findAnyOrderByIdOrOrderId, matchesId, matchesOrderId in Hfind.
    destruct (isObjectIdString identifier);
      apply findOne_Some in Hfind as [Hin Hm]; apply String.eqb_eq in Hm; done. }
  assert (∀ x, x ∈ coll' ↔ x ∈ coll ∧ doc_id x ≠ doc_id d) as Helem.
  { intros x. rewrite Hc'. by apply elem_of_deleteOne. }
  assert (∀ y, y ∈ coll' →
            (if isObjectIdString identifier
             then String.eqb (doc_id y) (toLowerCase identifier)
             else String.eqb (orderId (order y)) identifier) = false) as Hmiss.
  { intros y Hy. apply Helem in Hy as [Hy Hne].
    destruct (isObjectIdString identifier); apply String.eqb_neq; intros Heq.
    - apply Hne. congruence.
    - apply Hne, Huniq; [done|congruence]. }
  assert (findAnyOrderByIdOrOrderId identifier coll' = None) as Hany.
  { unfold findAnyOrderByIdOrOrderId, matchesId, matchesOrderId in *.
    destruct (isObjectIdString identifier); apply findOne_None; exact Hmiss. }
  split; [unfold hardDeleteOrder; by rewrite Hfind|].
  split; [rewrite Hc'; apply length_deleteOne; by exists d|].
  split; [exact Helem|]. split; [exact Hany|].
  split.
  - unfold findOrderByIdOrOrderId, matchesId, matchesOrderId in *.
    destruct (isObjectIdString identifier); apply findOne_None; intros y Hy;
      by rewrite (Hmiss y Hy).
  - unfold hardDeleteOrder. by rewrite Hany.
Qed.

Lemma hardDeleteOrder_removes_witness :
  let o1 := mkOrder "ORD-2026-001" "Development" "Offer Accepted"
              (mkProgress 1 7) (buildDefaultTimeline 0) None in
  let o2 := mkOrder "ORD-2026-002" "Shipped" "Transport Phase"
              (mkProgress 6 7) (buildDefaultTimeline 5) None in
  let coll := [mkOrderDoc "65a1b2c3d4e5f60718293a4b" true o1;
               mkOrderDoc "65a1b2c3d4e5f60718293a4c" false o2] in
  findAnyOrderByIdOrOrderId "65A1B2C3D4E5F60718293A4C"
    (fst (hardDeleteOrder "65A1B2C3D4E5F60718293A4C" coll)) = None.
Proof.
  intros o1 o2 coll.
  apply (hardDeleteOrder_removes "65A1B2C3D4E5F60718293A4C" coll
           (mkOrderDoc "65a1b2c3d4e5f60718293a4c" false o2)); [reflexivity| |].
  - cbn. repeat (apply NoDup_cons; split;
      [rewrite ?elem_of_cons, elem_of_nil; intuition discriminate|]).
    apply NoDup_nil_2.
  - intros x Hx Ho.
    apply elem_of_cons in Hx as [->|Hx]; [discriminate|].
    apply elem_of_cons in Hx as [->|Hx]; [reflexivity|].
    by apply elem_of_nil in Hx.
Defined.

(** ** Generated order ids *)

Lemma orderIdCandidate_not_objectId year n :
  isObjectIdString (orderIdCandidate year n) = false.
Proof.
  unfold isObjectIdString, orderIdCandidate. cbv zeta.
  cbn [String.app list_ascii_of_string forallb].
  change (isHexDigit "O") with false. cbn [andb]. apply andb_false_r.
Qed.

Lemma generateOrderId_Some year draws coll id :
  generateOrderId year draws coll = Some id →
  findOne (matchesOrderId id) coll = None ∧
  ∃ n, n ∈ draws ∧ id = orderIdCandidate year n.
Proof.
  induction draws as [|n draws IH]; [done|]. cbn [generateOrderId]. cbv zeta.
  destruct (findOne (matchesOrderId (orderIdCandidate year n)) coll) eqn:Hf.
  - intros Hg. destruct (IH Hg) as (Hnone & m & Hm & ->).
    split; [done|]. exists m. split; [by apply elem_of_cons; right|done].
  - intros [= <-]. split; [done|]. exists n.
    split; [by apply elem_of_cons; left|done].
Qed.

(** X21. An order id that the generation loop returns is new and well formed:
    it is "ORD-<year>-<nnn>" for one of the random numbers drawn, no document
    of the collection, active or soft-deleted, carries it, and it does not
    look like an ObjectId, so the handlers will look the new order up by its
    [orderId]. *)
Theorem generateOrderId_fresh (year : N) (draws : list N) (coll : list OrderDoc)
    (id : string) :
  generateOrderId year draws coll = Some id →
  (∀ d, d ∈ coll → orderId (order d) ≠ id) ∧
  (∃ n, n ∈ draws ∧ id = orderIdCandidate year n) ∧
  isObjectIdString id = false ∧
  (∀ docId o, orderId o = id →
     ∃ d, findOrderByIdOrOrderId id (coll ++ [mkOrderDoc docId true o]) = Some d ∧
          d = mkOrderDoc docId true o).
Proof.
  intros Hg. destruct (generateOrderId_Some year draws coll id Hg)
    as (Hnone & n & Hn & Hid).
  assert (∀ d, d ∈ coll → orderId (order d) ≠ id) as Hfresh.
  { intros d Hd. apply String.eqb_neq.
    apply (proj1 (findOne_None _ _) Hnone d Hd). }
  assert (isObjectIdString id = false) as Hobj.
  { rewrite Hid. apply orderIdCandidate_not_objectId. }
  split; [exact Hfresh|]. split; [by exists n|]. split; [exact Hobj|].
  intros docId o Ho. eexists. split; [|reflexivity].
  unfold findOrderByIdOrOrderId. rewrite Hobj.
  apply findOne_unique.
  - exists (mkOrderDoc docId true o). split; [apply elem_of_app; right; by left|].
    unfold matchesOrderId. cbn. rewrite Ho, String.eqb_refl. done.
  - intros y Hy Hm. apply andb_prop in Hm as [Hm _].
    apply String.eqb_eq in Hm.
    apply elem_of_app in Hy as [Hy|Hy]; [by destruct (Hfresh y Hy)|].
    apply elem_of_cons in Hy as [->|Hy]; [done|by apply elem_of_nil in Hy].
Qed.

Lemma generateOrderId_fresh_witness :
  let o1 := mkOrder "ORD-2026-007" "Development" "Offer Accepted"
              (mkProgress 1 7) (buildDefaultTimeline 0) None in
  let coll := [mkOrderDoc "65a1b2c3d4e5f60718293a4b" false o1] in
  isObjectIdString "ORD-2026-042" = false.
Proof.
  intros o1 coll.
  apply (generateOrderId_fresh 2026 [7%N; 42%N] coll "ORD-2026-042").
  reflexivity.
Defined.

Lemma fourDigits_years year :
  (1000 ≤ year ≤ 9999)%N → fourDigits (pretty.pretty year) = true.
Proof.
  intros Hy.
  assert (forallb (λ k, fourDigits (pretty.pretty (N.of_nat k)))
                  (seq (N.to_nat 1000) (N.to_nat 9000))
          = true) as Hall by (vm_compute; reflexivity).
  rewrite forallb_forall in Hall.
  specialize (Hall (N.to_nat year)). rewrite N2Nat.id in Hall.
  apply Hall, in_seq. lia.
Qed.

Lemma threeDigits_numbers n :
  (n < 1000)%N → threeDigits (padStart3 (pretty.pretty n)) = true.
Proof.
  intros Hn.
  assert (forallb (λ k, threeDigits (padStart3 (pretty.pretty (N.of_nat k))))
                  (seq 0 1000) = true) as Hall by (vm_compute; reflexivity).
  rewrite forallb_forall in Hall.
  specialize (Hall (N.to_nat n)). rewrite N2Nat.id in Hall.
  apply Hall, in_seq. lia.
Qed.

Lemma isOrderIdFormat_parts y p :
  fourDigits y = true → threeDigits p = true →
  isOrderIdFormat ("ORD-" +:+ y +:+ "-" +:+ p) = true ∧
  String.length ("ORD-" +:+ y +:+ "-" +:+ p) = 12%nat.
Proof.
  unfold fourDigits, threeDigits. intros Hy Hp.
  rewrite <- (string_of_list_ascii_of_string y), <- (string_of_list_ascii_of_string p).
  destruct (list_ascii_of_string y) as [|a [|b [|c [|d [|? ?]]]]]; try done.
  destruct (list_ascii_of_string p) as [|e [|f [|g [|? ?]]]]; try done.
  split; [|reflexivity].
  apply andb_prop in Hy as [Hy Hd]. apply andb_prop in Hy as [Hy Hc].
  apply andb_prop in Hy as [Ha Hb].
  apply andb_prop in Hp as [Hp Hg]. apply andb_prop in Hp as [He Hf].
  unfold isOrderIdFormat. cbv -[isDigit].
  by rewrite Ha, Hb, Hc, Hd, He, Hf, Hg.
Qed.

(** X22. The generator and the route validator agree: for a four digit year
    and a random number below 1000 the generated id has 12 characters, has the
    form ORD-dddd-ddd, is accepted by [validateOrderId] and is not
    ObjectId-shaped, so a request for it reaches the lookup by [orderId] and
    finds an active order that carries it. *)
Theorem orderIdCandidate_valid (year n : N) :
  (1000 ≤ year ≤ 9999)%N →
  (n < 1000)%N →
  let id := orderIdCandidate year n in
  String.length id = 12%nat ∧
  isOrderIdFormat id = true ∧
  validateOrderId id = true ∧
  isObjectIdString id = false ∧
  (∀ coll d, d ∈ coll → isActive d = true → orderId (order d) = id →
     ∃ d', findOrderByIdOrOrderId id coll = Some d' ∧
           orderId (order d') = id ∧ isActive d' = true).
Proof.
  intros Hy Hn id.
  destruct (isOrderIdFormat_parts _ _ (fourDigits_years year Hy)
              (threeDigits_numbers n Hn)) as [Hfmt Hlen].
  fold (orderIdCandidate year n) in Hfmt, Hlen. fold id in Hfmt, Hlen.
  assert (isObjectIdString id = false) as Hobj
    by apply orderIdCandidate_not_objectId.
  split; [exact Hlen|]. split; [exact Hfmt|].
  split; [unfold validateOrderId; by rewrite Hobj, Hfmt|].
  split; [exact Hobj|].
  intros coll d Hd Ha Ho.
  destruct (findOrderByIdOrOrderId id coll) as [d'|] eqn:Hf.
  - exists d'. split; [done|].
    destruct (findOrderByIdOrOrderId_sound id coll d' Hf) as (_ & Ha' & Hr).
    by rewrite Hobj in Hr.
  - unfold findOrderByIdOrOrderId in Hf. rewrite Hobj in Hf.
    pose proof (proj1 (findOne_None _ _) Hf d Hd) as Hm.
    unfold matchesOrderId in Hm. by rewrite Ho, String.eqb_refl, Ha in Hm.
Qed.

Lemma orderIdCandidate_valid_witness :
  validateOrderId (orderIdCandidate 2026 7) = true.
Proof. apply (orderIdCandidate_valid 2026 7); lia. Defined.

(** X23. The generation loop cannot end once the year is full: when every one
    of the 1000 ids of the year is carried by some document, soft-deleted ones
    included, no sequence of random numbers below 1000 yields an id. *)
Theorem generateOrderId_exhausted (year : N) (draws : list N)
    (coll : list OrderDoc) :
  (∀ n, (n < 1000)%N →
        ∃ d, d ∈ coll ∧ orderId (order d) = orderIdCandidate year n) →
  Forall (λ n, (n < 1000)%N) draws →
  generateOrderId year draws coll = None.
Proof.
  intros Hfull Hdraws. induction Hdraws as [|n draws Hn _ IH]; [done|].
  cbn [generateOrderId]. cbv zeta.
  destruct (findOne (matchesOrderId (orderIdCandidate year n)) coll) eqn:Hf;
    [exact IH|].
  destruct (Hfull n Hn) as (d & Hd & Ho).
  pose proof (proj1 (findOne_None _ _) Hf d Hd) as Hm.
  unfold matchesOrderId in Hm. by rewrite Ho, String.eqb_refl in Hm.
Qed.

Lemma generateOrderId_exhausted_witness :
  let doc := λ k, mkOrderDoc "" false
               (mkOrder (orderIdCandidate 2026 (N.of_nat k)) "Cancelled"
                  "Offer Accepted" (mkProgress 1 7) [] None) in
  generateOrderId 2026 [5%N; 17%N; 999%N] (doc <$> seq 0 1000) = None.
Proof.
  intros doc.
  apply (generateOrderId_exhausted 2026 [5%N; 17%N; 999%N] (doc <$> seq 0 1000)).
  - intros n Hn. exists (doc (N.to_nat n)). split.
    + apply list_elem_of_fmap. exists (N.to_nat n). split; [done|].
      apply elem_of_seq. lia.
    + unfold doc. cbn [order orderId]. by rewrite N2Nat.id.
  - repeat constructor.
Defined.

(** ** getOrders: pagination *)

Lemma ceilDiv_spec total limit :
  0 < limit →
  (ceilDiv total limit - 1) * limit < total ≤ ceilDiv total limit * limit.
Proof.
  intros Hl. unfold ceilDiv.
  pose proof (Z.div_mod (total + limit - 1) limit ltac:(lia)) as Hdm.
  pose proof (Z.mod_pos_bound (total + limit - 1) limit Hl) as Hmod.
  nia.
Qed.

Lemma getOrdersPage_Some {A} page limit (matching : list A) :
  1 ≤ page → 1 ≤ limit →
  getOrdersPage page limit matching =
    Some (take (Z.to_nat limit) (drop (Z.to_nat ((page - 1) * limit)) matching),
          mkPagination page (ceilDiv (Z.of_nat (length matching)) limit)
            (Z.of_nat (length matching))
            (page <? ceilDiv (Z.of_nat (length matching)) limit) (1 <? page)).
Proof.
  intros Hp Hl. unfold getOrdersPage.
  destruct (Z.leb_spec 1 page); [|lia]. by destruct (Z.leb_spec 1 limit); [|lia].
Qed.

(** X24. The paging flags tell the truth about the matching documents: for
    [page >= 1] and [limit >= 1] the page holds the documents from position
    [(page - 1) * limit], at most [limit] of them; the number of pages is the
    least number whose pages hold them all; [hasNext] is set exactly when
    documents remain after this page, [hasPrev] exactly when the page is not
    the first, and the page is empty exactly when it lies beyond the last
    document. *)
Theorem getOrdersPage_flags {A} (page limit : Z) (matching : list A) :
  1 ≤ page →
  1 ≤ limit →
  ∃ data pg,
    getOrdersPage page limit matching = Some (data, pg) ∧
    pg_current pg = page ∧
    pg_total pg = Z.of_nat (length matching) ∧
    (pg_pages pg - 1) * limit < pg_total pg ≤ pg_pages pg * limit ∧
    Z.of_nat (length data)
      = Z.max 0 (Z.min limit (pg_total pg - (page - 1) * limit)) ∧
    (∀ i, (i < length data)%nat →
          data !! i = matching !! (Z.to_nat ((page - 1) * limit) + i)%nat) ∧
    (pg_hasNext pg = true ↔ page * limit < pg_total pg) ∧
    (pg_hasNext pg = true ↔ drop (Z.to_nat (page * limit)) matching ≠ []) ∧
    (pg_hasPrev pg = true ↔ 1 < page) ∧
    (data = [] ↔ pg_total pg ≤ (page - 1) * limit).
Proof.
  intros Hp Hl. eexists _, _. split; [by apply getOrdersPage_Some|].
  cbn [pg_current pg_total pg_pages pg_hasNext pg_hasPrev].
  set (total := Z.of_nat (length matching)).
  pose proof (ceilDiv_spec total limit ltac:(lia)) as Hceil.
  assert (Z.of_nat (length (take (Z.to_nat limit)
                     (drop (Z.to_nat ((page - 1) * limit)) matching)))
          = Z.max 0 (Z.min limit (total - (page - 1) * limit))) as Hlen.
  { rewrite length_take, length_drop. subst total. nia. }
  assert ((page <? ceilDiv total limit) = true ↔ page * limit < total) as Hnext.
  { rewrite Z.ltb_lt. nia. }
  split; [done|]. split; [done|]. split; [exact Hceil|]. split; [exact Hlen|].
  split.
  { intros i Hi. rewrite lookup_take_lt by (rewrite length_take in Hi; lia).
    by rewrite lookup_drop. }
  split; [exact Hnext|].
  split.
  { rewrite Hnext. split.
    - intros Hlt Hnil. apply (f_equal length) in Hnil.
      rewrite length_drop in Hnil. cbn in Hnil. subst total. nia.
    - intros Hne. destruct (Z.lt_ge_cases (page * limit) total) as [|Hge]; [done|].
      exfalso. apply Hne. apply drop_ge. subst total. nia. }
  split; [apply Z.ltb_lt|].
  split.
  - intros Hnil. rewrite Hnil in Hlen. cbn in Hlen. lia.
  - intros Hge. apply length_zero_iff_nil. lia.
Qed.

Lemma getOrdersPage_flags_witness :
  ∃ data pg, getOrdersPage 2 10 (seq 0 25) = Some (data, pg) ∧ pg_current pg = 2.
Proof.
  destruct (getOrdersPage_flags 2 10 (seq 0 25)) as (data & pg & Hg & Hc & _);
    [lia|lia|].
  exists data, pg. by split.
Defined.

Lemma pages_concat {A} (L n : nat) (l : list A) :
  concat ((λ k, take L (drop (k * L) l)) <$> seq 0 n) = take (n * L) l.
Proof.
  induction n as [|n IH]; [done|].
  rewrite seq_S, fmap_app, concat_app, IH. cbn [fmap list_fmap concat].
  rewrite app_nil_r, take_take_drop. f_equal. lia.
Qed.

(** X25. The pages partition the result: for [limit >= 1] the pages 1 to
    [pages], one after the other, are the matching documents in order, each
    exactly once, and every page after the last is empty. *)
Theorem getOrdersPage_cover {A} (limit : Z) (matching : list A) :
  1 ≤ limit →
  let pages := ceilDiv (Z.of_nat (length matching)) limit in
  let dataOf := λ page : Z,
    default [] (fst <$> getOrdersPage page limit matching) in
  concat ((λ k, dataOf (Z.of_nat (S k))) <$> seq 0 (Z.to_nat pages)) = matching ∧
  (∀ page, pages < page → dataOf page = []).
Proof.
  intros Hl pages dataOf.
  pose proof (ceilDiv_spec (Z.of_nat (length matching)) limit ltac:(lia)) as Hceil.
  fold pages in Hceil.
  assert (∀ k, dataOf (Z.of_nat (S k))
               = take (Z.to_nat limit) (drop (k * Z.to_nat limit) matching)) as Hdata.
  { intros k. unfold dataOf. rewrite getOrdersPage_Some by lia. cbn.
    do 2 f_equal. nia. }
  split.
  - erewrite list_fmap_ext; [|intros i k _; apply Hdata].
    rewrite pages_concat. apply take_ge. nia.
  - intros page Hpage. unfold dataOf.
    assert (0 ≤ pages) by nia.
    rewrite getOrdersPage_Some by lia. cbn.
    rewrite drop_ge; [by rewrite take_nil|]. nia.
Qed.

Lemma getOrdersPage_cover_witness :
  concat ((λ k, default [] (fst <$> getOrdersPage (Z.of_nat (S k)) 10 (seq 0 25)))
            <$> seq 0 (Z.to_nat (ceilDiv (Z.of_nat (length (seq 0 25))) 10)))
  = seq 0 25.
Proof. apply (getOrdersPage_cover 10 (seq 0 25)). lia. Defined.
